(** * Lease generator: the request pipeline of [netlify/functions/generate-lease.js]

    A shallow embedding of the Netlify function [exports.handler] and of the
    JavaScript values it manipulates.  The handler is a straight-line
    sequence of guarded stages around collaborators that live in [lib/]
    (rate limiter, captcha verifier, schemas, LLM provider, telemetry,
    document renderer).  The collaborators are taken as an environment
    record; every call is threaded through an explicit process state and
    recorded, with its outcome, in the trace of the request. *)

From Stdlib Require Import ZArith Ascii String List Lia Bool DecimalString.
From Stdlib.Strings Require Byte.
From stdpp Require Import gmap strings list.

Local Open Scope Z_scope.
#[local] Set Warnings "-register-all".

(** ** JavaScript values *)

Module Js.

(** A JavaScript number: integers are kept exact, any other finite number
    by the text [ToString] gives it. *)
Inductive Number :=
| NInt (z : Z)
| NFrac (text : string)
| NNaN
| NInfinity (negative : bool).

(** Values as [JSON.parse] produces them, plus [undefined].  The fields of
    an object are kept in insertion order; keys are distinct. *)
Inductive Value :=
| VUndefined
| VNull
| VBool (b : bool)
| VNum (n : Number)
| VStr (s : string)
| VArr (items : list Value)
| VObj (fields : list (string * Value)).

(** What a [throw] carries: an [Error] object ([error instanceof Error])
    with its [message] and [stack], or any other value. *)
Inductive Exn :=
| ErrorObj (message stack : string)
| NonError (v : Value).

(** The result of a call that may throw. *)
Inductive Res (A : Type) :=
| Ok (a : A)
| Throw (e : Exn).
Arguments Ok {A} a.
Arguments Throw {A} e.

Definition dquote : string := String "034"%char EmptyString.

(** [n.toString()] for an integer number. *)
Definition Z_toString (z : Z) : string := NilZero.string_of_int (Z.to_int z).

(** [ToBoolean]. *)
Definition truthy (v : Value) : bool :=
  match v with
  | VUndefined | VNull => false
  | VBool b => b
  | VNum (NInt z) => negb (z =? 0)
  | VNum NNaN => false
  | VNum _ => true
  | VStr s => negb (String.eqb s EmptyString)
  | VArr _ | VObj _ => true
  end.

Fixpoint lookup_field (k : string) (fields : list (string * Value)) : Value :=
  match fields with
  | [] => VUndefined
  | (k', v) :: rest => if String.eqb k k' then v else lookup_field k rest
  end.

(** The text of the [TypeError] V8 raises for [null.k] or [undefined.k]. *)
Definition read_error_message (base : string) (k : string) : string :=
  "Cannot read properties of " +:+ base +:+ " (reading '" +:+ k +:+ "')".

(** [v.k] for a key [k] that no prototype defines: a [TypeError] on
    [null] and [undefined], the own property of an object, [undefined]
    on every other value.  [captureStack] is the engine's stack capture. *)
Definition get_prop (captureStack : string -> string) (v : Value) (k : string)
  : Res Value :=
  match v with
  | VUndefined =>
      let m := read_error_message "undefined" k in
      Throw (ErrorObj m (captureStack ("TypeError: " +:+ m)))
  | VNull =>
      let m := read_error_message "null" k in
      Throw (ErrorObj m (captureStack ("TypeError: " +:+ m)))
  | VObj fields => Ok (lookup_field k fields)
  | _ => Ok VUndefined
  end.

(** *** [JSON.stringify] *)

Definition hex_digit (n : N) : ascii :=
  match n with
  | 0 => "0" | 1 => "1" | 2 => "2" | 3 => "3" | 4 => "4" | 5 => "5"
  | 6 => "6" | 7 => "7" | 8 => "8" | 9 => "9" | 10 => "a" | 11 => "b"
  | 12 => "c" | 13 => "d" | 14 => "e" | _ => "f"
  end%char%N.

(** One character of a quoted JSON string (QuoteJSONString). *)
Definition escape_char (c : ascii) : string :=
  let n := N_of_ascii c in
  if (n =? 34)%N then "\" +:+ dquote
  else if (n =? 92)%N then "\\"
  else if (n =? 8)%N then "\b"
  else if (n =? 9)%N then "\t"
  else if (n =? 10)%N then "\n"
  else if (n =? 12)%N then "\f"
  else if (n =? 13)%N then "\r"
  else if (n <? 32)%N then
    "\u00" +:+ String (hex_digit (n / 16)) (String (hex_digit (n mod 16)) EmptyString)
  else String c EmptyString.

Fixpoint escape (s : string) : string :=
  match s with
  | EmptyString => EmptyString
  | String c rest => escape_char c +:+ escape rest
  end.

Definition quote (s : string) : string := dquote +:+ escape s +:+ dquote.

Definition json_number (n : Number) : string :=
  match n with
  | NInt z => Z_toString z
  | NFrac text => text
  | NNaN | NInfinity _ => "null"
  end.

(** [JSON.stringify(v)]: [None] is the [undefined] it returns for
    [undefined]; a property whose value is [undefined] is left out, an
    [undefined] array element is written [null]. *)
Fixpoint stringify_opt (v : Value) : option string :=
  match v with
  | VUndefined => None
  | VNull => Some "null"
  | VBool b => Some (if b then "true" else "false")
  | VNum n => Some (json_number n)
  | VStr s => Some (quote s)
  | VArr items =>
      Some ("[" +:+
        (fix elems (first : bool) (l : list Value) : string :=
           match l with
           | [] => EmptyString
           | x :: l' =>
               (if first then EmptyString else ",") +:+
               match stringify_opt x with Some t => t | None => "null" end +:+
               elems false l'
           end) true items +:+ "]")
  | VObj fields =>
      Some ("{" +:+
        (fix props (first : bool) (l : list (string * Value)) : string :=
           match l with
           | [] => EmptyString
           | (k, x) :: l' =>
               match stringify_opt x with
               | None => props first l'
               | Some t =>
                   (if first then EmptyString else ",") +:+
                   quote k +:+ ":" +:+ t +:+ props false l'
               end
           end) true fields +:+ "}")
  end.

(** [JSON.stringify] of an object or array, where it always yields text. *)
Definition JSON_stringify (v : Value) : string :=
  match stringify_opt v with Some t => t | None => "undefined" end.

(** *** [Buffer.prototype.toString('base64')] *)

Definition base64_alphabet : string :=
  "ABCDEFGHIJKLMNOPQRSTUVWXYZabcdefghijklmnopqrstuvwxyz0123456789+/".

Definition base64_char (i : N) : ascii :=
  match String.get (N.to_nat i) base64_alphabet with
  | Some c => c
  | None => "="%char
  end.

Fixpoint base64 (bytes : list Byte.byte) : string :=
  match bytes with
  | [] => EmptyString
  | [a] =>
      let n := Byte.to_N a in
      String (base64_char (n / 4))
        (String (base64_char ((n mod 4) * 16)) "==")
  | [a; b] =>
      let n := (Byte.to_N a * 256 + Byte.to_N b)%N in
      String (base64_char (n / 1024))
        (String (base64_char ((n / 16) mod 64))
           (String (base64_char ((n mod 16) * 4)) "="))
  | a :: b :: c :: rest =>
      let n := (Byte.to_N a * 65536 + Byte.to_N b * 256 + Byte.to_N c)%N in
      String (base64_char (n / 262144))
        (String (base64_char ((n / 4096) mod 64))
           (String (base64_char ((n / 64) mod 64))
              (String (base64_char (n mod 64)) (base64 rest))))
  end.

Fixpoint index_of (c : ascii) (s : string) (i : N) : option N :=
  match s with
  | EmptyString => None
  | String d rest => if Ascii.eqb c d then Some i else index_of c rest (i + 1)
  end.

Definition base64_index (c : ascii) : option N := index_of c base64_alphabet 0.

Definition bytes_of (ns : list N) : option (list Byte.byte) :=
  mapM Byte.of_N ns.

(** [Buffer.from(text, 'base64')] on padded base64 text. *)
Fixpoint base64_decode (s : string) : option (list Byte.byte) :=
  match s with
  | EmptyString => Some []
  | String c0 (String c1 (String c2 (String c3 rest))) =>
      match base64_index c0, base64_index c1 with
      | Some i0, Some i1 =>
          if Ascii.eqb c2 "=" then
            if Ascii.eqb c3 "=" then
              match rest with
              | EmptyString => bytes_of [i0 * 4 + i1 / 16]%N
              | _ => None
              end
            else None
          else
            match base64_index c2 with
            | Some i2 =>
                if Ascii.eqb c3 "=" then
                  match rest with
                  | EmptyString =>
                      let n := (i0 * 1024 + i1 * 16 + i2 / 4)%N in
                      bytes_of [n / 256; n mod 256]%N
                  | _ => None
                  end
                else
                  match base64_index c3, base64_decode rest with
                  | Some i3, Some tail =>
                      let n := (i0 * 262144 + i1 * 4096 + i2 * 64 + i3)%N in
                      match bytes_of [n / 65536; (n / 256) mod 256; n mod 256]%N with
                      | Some group => Some (group ++ tail)
                      | None => None
                      end
                  | _, _ => None
                  end
            | None => None
            end
      | _, _ => None
      end
  | _ => None
  end.

(** [Array.prototype.join]. *)
Fixpoint join (sep : string) (l : list string) : string :=
  match l with
  | [] => EmptyString
  | [x] => x
  | x :: rest => x +:+ sep +:+ join sep rest
  end.

End Js.
Export Js.

(** ** Records exchanged with the collaborators *)

(** A segment of a Zod issue path: an object key or an array index. *)
Inductive PathSeg :=
| PKey (k : string)
| PIndex (i : N).

(** An issue of a [ZodError]: [code], [path], [message], and the further
    properties that depend on the code ([expected], [received], ...). *)
Record ZodIssue := {
  issue_code : string;
  issue_path : list PathSeg;
  issue_message : string;
  issue_extra : list (string * Value);
}.

(** The result of [schema.safeParse]: [{success: true, data}] or
    [{success: false, error}], the error given by its [errors]. *)
Inductive SafeParse :=
| ParseSuccess (data : Value)
| ParseFailure (errors : list ZodIssue).

(** What [rateLimitMiddleware] resolves to. *)
Record RateLimitResult := {
  rl_success : bool;
  rl_status : Z;
  rl_headers : gmap string string;
  rl_error : Value;
  rl_remaining : Z;
  rl_resetTime : Z;
}.

(** What [llmProvider.generateLease] resolves to. *)
Record GenResult := {
  leaseData : Value;
  tokenUsage : Value;
  estimatedCost : Value;
}.

(** A provider instance, by its reference. *)
Definition ProviderRef := nat.

(** The Netlify event: only [httpMethod] and [body] are read by the
    handler; the whole event goes to the rate limiter.  [None] is a
    [null] body. *)
Record HttpEvent := {
  httpMethod : string;
  ev_headers : gmap string string;
  ev_body : option string;
}.

Record Response := {
  statusCode : Z;
  headers : gmap string string;
  body : string;
  isBase64Encoded : bool;
}.

(** ** Observable operations *)

(** The arguments [console.log] and [console.error] are given: a value
    pretty-printed by [JSON.stringify(v, null, 2)], the issues of a
    [ZodError], a caught exception, the details object of the [catch]
    block. *)
Inductive LogArg :=
| LPretty (v : Value)
| LIssues (errors : list ZodIssue)
| LExn (e : Exn)
| LDetails (message stack timestamp : string).

(** One operation of a run, with what it returned or threw. *)
Inductive Event :=
| ERateLimit (event : HttpEvent) (r : Res RateLimitResult)
| EJsonParse (text : string) (r : Res Value)
| EConsoleLog (label : string) (arg : LogArg)
| EConsoleError (label : string) (arg : LogArg)
| ECaptchaRequired (r : Res bool)
| EVerifyCaptcha (token : Value) (r : Res bool)
| EInputParse (raw : Value) (r : Res SafeParse)
| ECreateProvider (r : Res ProviderRef)
| EGenerate (p : ProviderRef) (input : Value) (r : Res GenResult)
| EOutputParse (raw : Value) (r : Res SafeParse)
| ELogTokenUsage (usage : Value) (r : Res unit)
| ETrackDailyCost (cost : Value) (r : Res unit)
| ERender (lease : Value) (r : Res (list Byte.byte))
| EDateNow (t : Z)
| ENewDate (t : Z).

(** ** The monad of the handler body

    A computation runs from a process state, yields the new state and the
    operations it performed, and ends normally, by a [return] of the
    enclosing function, or by a [throw]. *)

Inductive Outcome (A : Type) :=
| Normal (a : A)
| Returned (r : Response)
| Thrown (e : Exn).
Arguments Normal {A} a.
Arguments Returned {A} r.
Arguments Thrown {A} e.

Definition M (S A : Type) : Type := S -> Outcome A * S * list Event.

Section Monad.
Context {S : Type}.

Definition ret {A} (a : A) : M S A := fun s => (Normal a, s, []).

Definition bind {A B} (m : M S A) (k : A -> M S B) : M S B :=
  fun s =>
    match m s with
    | (Normal a, s1, t1) =>
        match k a s1 with
        | (o, s2, t2) => (o, s2, t1 ++ t2)
        end
    | (Returned r, s1, t1) => (Returned r, s1, t1)
    | (Thrown e, s1, t1) => (Thrown e, s1, t1)
    end.

(** [return r;] *)
Definition return_ {A} (r : Response) : M S A := fun s => (Returned r, s, []).

(** A call of a collaborator ([await]ed where it is asynchronous). *)
Definition call {A} (f : S -> Res A * S) (ev : Res A -> Event) : M S A :=
  fun s =>
    match f s with
    | (Ok a, s1) => (Normal a, s1, [ev (Ok a)])
    | (Throw e, s1) => (Thrown e, s1, [ev (Throw e)])
    end.

(** A built-in that may throw but touches no state. *)
Definition call_pure {A} (r : Res A) (ev : Res A -> Event) : M S A :=
  fun s =>
    match r with
    | Ok a => (Normal a, s, [ev r])
    | Throw e => (Thrown e, s, [ev r])
    end.

(** An expression that may throw and is not an operation of its own. *)
Definition eval {A} (r : Res A) : M S A :=
  fun s =>
    match r with
    | Ok a => (Normal a, s, [])
    | Throw e => (Thrown e, s, [])
    end.

(** A read that cannot throw. *)
Definition read {A} (f : S -> A * S) (ev : A -> option Event) : M S A :=
  fun s =>
    match f s with
    | (a, s1) => (Normal a, s1, match ev a with Some e => [e] | None => [] end)
    end.

Definition emit (e : Event) : M S unit := fun s => (Normal tt, s, [e]).

(** [if (c) { ... }] whose body ends by [return]. *)
Definition when (c : bool) (m : M S unit) : M S unit :=
  if c then m else ret tt.

(** [try { body } catch (error) { handler }], both ending by [return]. *)
Definition try_catch (body : M S Response) (handler : Exn -> M S Response)
  : M S Response :=
  fun s =>
    match body s with
    | (Thrown e, s1, t1) =>
        match handler e s1 with
        | (o, s2, t2) => (o, s2, t1 ++ t2)
        end
    | r => r
    end.

(** The value an [async] function resolves to. *)
Definition run (m : M S Response) (s : S) : Res Response * S * list Event :=
  match m s with
  | (Normal r, s1, t) => (Ok r, s1, t)
  | (Returned r, s1, t) => (Ok r, s1, t)
  | (Thrown e, s1, t) => (Throw e, s1, t)
  end.
End Monad.

Declare Scope js_scope.
Delimit Scope js_scope with js.
Notation "x <- m ;; k" := (bind m (fun x => k))
  (at level 100, m at next level, right associativity) : js_scope.
Notation "m ;;; k" := (bind m (fun _ => k))
  (at level 100, right associativity) : js_scope.

Local Open Scope js_scope.

(** ** The handler *)

(** [String(segment)] for a segment of an issue path. *)
Definition seg_text (p : PathSeg) : string :=
  match p with
  | PKey k => k
  | PIndex i => Z_toString (Z.of_N i)
  end.

(** [err.path.join('.')] *)
Definition path_text (err : ZodIssue) : string :=
  join "." (map seg_text (issue_path err)).

Definition seg_value (p : PathSeg) : Value :=
  match p with
  | PKey k => VStr k
  | PIndex i => VNum (NInt (Z.of_N i))
  end.

(** A Zod issue as the object [JSON.stringify] sees. *)
Definition issue_value (err : ZodIssue) : Value :=
  VObj ([("code", VStr (issue_code err))] ++ issue_extra err ++
        [("path", VArr (map seg_value (issue_path err)));
         ("message", VStr (issue_message err))]).

Definition issues_value (errors : list ZodIssue) : Value :=
  VArr (map issue_value errors).

(** The [headers] constant of the handler. *)
Definition cors_headers : gmap string string :=
  <["Access-Control-Allow-Origin" := "*"]>
  (<["Access-Control-Allow-Headers" := "Content-Type"]>
  (<["Access-Control-Allow-Methods" := "GET, POST, OPTIONS"]> ∅)).

(** [{...a, ...b}]: the properties of [b] win. *)
Definition spread (a b : gmap string string) : gmap string string := b ∪ a.

(** [event.body] as [JSON.parse] reads its argument ([ToString]). *)
Definition body_text (event : HttpEvent) : string :=
  match ev_body event with
  | Some text => text
  | None => "null"
  end.

Section Handler.
Context {S : Type}.

(** The collaborators of the handler ([lib/rateLimit], [lib/captcha],
    [lib/schema], [lib/llm], [lib/telemetry], [lib/pdf]) and the
    built-ins it calls, as functions of the process state [S]. *)
Record Env := {
  rateLimitMiddleware : HttpEvent -> S -> Res RateLimitResult * S;
  JSON_parse : string -> Res Value;
  captureStack : string -> string;
  isCaptchaRequired : S -> Res bool * S;
  verifyCaptcha : Value -> S -> Res bool * S;
  LeaseInputSchema_safeParse : Value -> S -> Res SafeParse * S;
  LeaseOutputSchema_safeParse : Value -> S -> Res SafeParse * S;
  createLLMProvider : S -> Res ProviderRef * S;
  generateLease : ProviderRef -> Value -> S -> Res GenResult * S;
  logTokenUsage : Value -> S -> Res unit * S;   (* called without [await] *)
  trackDailyCost : Value -> S -> Res unit * S;  (* called without [await] *)
  generateLeaseDocx : Value -> S -> Res (list Byte.byte) * S;
  getDocumentMimeType : string -> string;
  getDocumentExtension : string -> string;
  Date_now : S -> Z * S;
  Date_toISOString : Z -> string;
  NODE_ENV : S -> option string;
}.

Variable env : Env.

Definition json_response (status : Z) (v : Value) : Response :=
  {| statusCode := status;
     headers := cors_headers;
     body := JSON_stringify v;
     isBase64Encoded := false |}.

(** The [catch] block (lines 128-150). *)
Definition on_error (error : Exn) : M S Response :=
  emit (EConsoleError "Lease generation error:" (LExn error));;;
  let errorMessage :=
    match error with ErrorObj m _ => m | NonError _ => "Unknown error" end in
  let errorStack :=
    match error with ErrorObj _ st => st | NonError _ => "No stack trace" end in
  t <- read (Date_now env) (fun t => Some (ENewDate t));;
  emit (EConsoleError "Error details:"
          (LDetails errorMessage errorStack (Date_toISOString env t)));;;
  mode <- read (fun s => (NODE_ENV env s, s)) (fun _ => None);;
  return_ (json_response 500
    (VObj [("success", VBool false);
           ("error", VStr "Internal server error");
           ("message", VStr ("An unexpected error occurred: " +:+ errorMessage
                             +:+ ". Please try again."));
           ("details",
            if bool_decide (mode = Some "development")
            then VStr errorStack else VUndefined)])).

(** The [try] block (lines 26-126). *)
Definition pipeline (event : HttpEvent) : M S Response :=
  (* 1. Rate Limiting *)
  rateLimit <- call (rateLimitMiddleware env event) (ERateLimit event);;
  when (negb (rl_success rateLimit))
    (return_ {| statusCode := rl_status rateLimit;
                headers := spread cors_headers (rl_headers rateLimit);
                body := JSON_stringify
                  (VObj [("success", VBool false);
                         ("error", rl_error rateLimit)]);
                isBase64Encoded := false |});;;
  body <- call_pure (JSON_parse env (body_text event))
                    (EJsonParse (body_text event));;
  emit (EConsoleLog "Received request body:" (LPretty body));;;
  (* 2. Captcha Verification (if required) *)
  required <- call (isCaptchaRequired env) ECaptchaRequired;;
  when required
    (captchaToken <- eval (get_prop (captureStack env) body "captchaToken");;
     when (negb (truthy captchaToken))
       (return_ (json_response 400
          (VObj [("success", VBool false);
                 ("error", VStr "Captcha token missing")])));;;
     captchaVerified <- call (verifyCaptcha env captchaToken)
                             (EVerifyCaptcha captchaToken);;
     when (negb captchaVerified)
       (return_ (json_response 403
          (VObj [("success", VBool false);
                 ("error", VStr "Captcha verification failed")]))));;;
  (* 3. Input Validation *)
  inputValidation <- call (LeaseInputSchema_safeParse env body)
                          (EInputParse body);;
  validatedInput <-
    match inputValidation with
    | ParseFailure errors =>
        emit (EConsoleError "Input validation failed:" (LIssues errors));;;
        return_ (json_response 400
          (VObj [("success", VBool false);
                 ("error", VStr "Invalid input data");
                 ("details", issues_value errors)]))
    | ParseSuccess data => ret data
    end;;
  (* 4. LLM Call *)
  llmProvider <- call (createLLMProvider env) ECreateProvider;;
  generated <- call (generateLease env llmProvider validatedInput)
                    (EGenerate llmProvider validatedInput);;
  (* 5. LLM Output Validation *)
  outputValidation <-
    call (LeaseOutputSchema_safeParse env (leaseData generated))
         (EOutputParse (leaseData generated));;
  match outputValidation with
  | ParseFailure errors =>
      emit (EConsoleError "LLM output validation failed:" (LIssues errors));;;
      emit (EConsoleError "LLM returned:" (LPretty (leaseData generated)));;;
      let missingFields := map path_text errors in
      return_ (json_response 422
        (VObj [("success", VBool false);
               ("error", VStr "Invalid lease data generated");
               ("message", VStr ("Missing or invalid fields: " +:+
                                 join ", " missingFields +:+
                                 ". Please try again."));
               ("details", issues_value errors)]))
  | ParseSuccess _ => ret tt
  end;;;
  (* 6. Telemetry Logging *)
  call (logTokenUsage env (tokenUsage generated))
       (ELogTokenUsage (tokenUsage generated));;;
  call (trackDailyCost env (estimatedCost generated))
       (ETrackDailyCost (estimatedCost generated));;;
  (* 7. Document Generation (DOCX) *)
  docxBuffer <- call (generateLeaseDocx env (leaseData generated))
                     (ERender (leaseData generated));;
  let format := "docx" in
  now <- read (Date_now env) (fun t => Some (EDateNow t));;
  let filename :=
    "lease-" +:+ Z_toString now +:+ getDocumentExtension env format in
  return_
    {| statusCode := 200;
       headers :=
         spread
           (<["Content-Type" := getDocumentMimeType env format]>
            (<["Content-Disposition" :=
                 "attachment; filename=" +:+ dquote +:+ filename +:+ dquote]>
            (<["X-Rate-Limit-Remaining" := Z_toString (rl_remaining rateLimit)]>
            (<["X-Rate-Limit-Reset" := Z_toString (rl_resetTime rateLimit)]> ∅))))
           cors_headers;
       body := base64 docxBuffer;
       isBase64Encoded := true |}.

(** [exports.handler] *)
Definition handler (event : HttpEvent) : M S Response :=
  if String.eqb (httpMethod event) "OPTIONS" then
    return_ {| statusCode := 200;
               headers := cors_headers;
               body := EmptyString;
               isBase64Encoded := false |}
  else try_catch (pipeline event) on_error.

End Handler.

Arguments Env S : clear implicits.

(** ** Reading a run *)

(** The handler resolves to a response [resp], leaving the process in state
    [s'] after the operations [tr], and [P] holds of them. *)
Definition Resolves {S} (env : Env S) (event : HttpEvent) (s : S)
    (P : Response -> S -> list Event -> Prop) : Prop :=
  exists resp s' tr, run (handler env event) s = (Ok resp, s', tr) /\ P resp s' tr.

(** The stages of the pipeline. *)
Inductive Stage :=
| RateLimit | ChallengeVerify | InputValidate | Generate
| OutputValidate | Telemetry | Render | Respond.

Global Instance Stage_eq_dec : EqDecision Stage.
Proof. solve_decision. Defined.

(** The stage an operation belongs to.  Decoding the body, reading the
    captcha configuration and console output belong to no stage. *)
Definition stage_of (e : Event) : option Stage :=
  match e with
  | ERateLimit _ _ => Some RateLimit
  | EVerifyCaptcha _ _ => Some ChallengeVerify
  | EInputParse _ _ => Some InputValidate
  | ECreateProvider _ | EGenerate _ _ _ => Some Generate
  | EOutputParse _ _ => Some OutputValidate
  | ELogTokenUsage _ _ | ETrackDailyCost _ _ => Some Telemetry
  | ERender _ _ => Some Render
  | EDateNow _ => Some Respond
  | EJsonParse _ _ | ECaptchaRequired _ | EConsoleLog _ _
  | EConsoleError _ _ | ENewDate _ => None
  end.









Definition is_verify (e : Event) : bool :=
  match e with EVerifyCaptcha _ _ => true | _ => false end.
Definition is_create (e : Event) : bool :=
  match e with ECreateProvider _ => true | _ => false end.
Definition is_generate (e : Event) : bool :=
  match e with EGenerate _ _ _ => true | _ => false end.
Definition is_input_parse (e : Event) : bool :=
  match e with EInputParse _ _ => true | _ => false end.

(** How many operations of a kind a run performed. *)
Definition calls (kind : Event -> bool) (tr : list Event) : nat :=
  length (filter (fun e => kind e = true) tr).

(** [s] begins with [p]. *)
Fixpoint starts_with (p s : string) : bool :=
  match p with
  | EmptyString => true
  | String a p' =>
      match s with
      | EmptyString => false
      | String b s' => Ascii.eqb a b && starts_with p' s'
      end
  end.

(** [p] occurs in [s]. *)
Fixpoint contains (p s : string) : bool :=
  starts_with p s ||
  match s with
  | EmptyString => false
  | String _ rest => contains p rest
  end.

Definition is_digit (c : ascii) : bool :=
  let n := N_of_ascii c in ((48 <=? n) && (n <=? 57))%N.

Fixpoint all_digits (s : string) : bool :=
  match s with
  | EmptyString => true
  | String c rest => is_digit c && all_digits rest
  end.

(** The regular expression [lease-\d+\.docx]. *)
Definition lease_docx_name (name : string) : Prop :=
  exists digits, digits <> EmptyString /\ all_digits digits = true /\
                 name = "lease-" +:+ digits +:+ ".docx".

(** The exception an operation ended with. *)
Definition thrown_by (ev : Event) : option Exn :=
  match ev with
  | ERateLimit _ (Throw e) | EJsonParse _ (Throw e) | ECaptchaRequired (Throw e)
  | EVerifyCaptcha _ (Throw e) | EInputParse _ (Throw e)
  | ECreateProvider (Throw e) | EGenerate _ _ (Throw e)
  | EOutputParse _ (Throw e) | ELogTokenUsage _ (Throw e)
  | ETrackDailyCost _ (Throw e) | ERender _ (Throw e) => Some e
  | _ => None
  end.

(** Exception [e] was raised in the [try] block: by one of its operations,
    or by reading [captchaToken] off a body without properties. *)
Definition raised {S} (env : Env S) (event : HttpEvent) (tr : list Event)
    (e : Exn) : Prop :=
  (exists ev, In ev tr /\ thrown_by ev = Some e) \/
  (exists b, In (EJsonParse (body_text event) (Ok b)) tr /\
             In (ECaptchaRequired (Ok true)) tr /\
             get_prop (captureStack env) b "captchaToken" = Throw e).

(** The message an exception puts in the 500 response and in the log. *)
Definition message_of (e : Exn) : string :=
  match e with ErrorObj m _ => m | NonError _ => "Unknown error" end.

Definition stack_of (e : Exn) : string :=
  match e with ErrorObj _ st => st | NonError _ => "No stack trace" end.

(** The body of the 500 response for exception [e]; [details] is the stack
    or [undefined]. *)
Definition internal_error_body (e : Exn) (details : Value) : string :=
  JSON_stringify
    (VObj [("success", VBool false);
           ("error", VStr "Internal server error");
           ("message", VStr ("An unexpected error occurred: " +:+ message_of e
                             +:+ ". Please try again."));
           ("details", details)]).

(** What the [catch] block writes to the console, for an exception caught
    at clock reading [t]. *)
Definition error_log {S} (env : Env S) (e : Exn) (t : Z) : list Event :=
  [EConsoleError "Lease generation error:" (LExn e);
   ENewDate t;
   EConsoleError "Error details:"
     (LDetails (message_of e) (stack_of e) (Date_toISOString env t))].

(** Modelled from the spec: [lib/rateLimit] is not among the sources.  The
    decision it returns for an exceeded quota is a refusal with the
    too-many-requests status whose headers carry the remaining quota and
    the reset time. *)
Definition quota_exceeded (d : RateLimitResult) (remaining reset : string) : Prop :=
  rl_success d = false /\ rl_status d = 429 /\
  (exists k, rl_headers d !! k = Some remaining) /\
  (exists k, rl_headers d !! k = Some reset).

(** ** Test doubles

    Stand-ins for the collaborators, over a process state that holds the
    counters the spec describes (quota used, telemetry records, clock). *)

Module Stub.

Record Proc := {
  clock : Z;
  used : Z;
  usage_log : list Value;
  cost_log : list Value;
  providers_made : nat;
  mode : option string;
}.

Record Scenario := {
  quota : Z;
  parse : string -> Res Value;
  captcha_required : bool;
  verify : Value -> Res bool;
  input_schema : Value -> SafeParse;
  generator : Value -> Res GenResult;
  output_schema : Value -> SafeParse;
  renderer : Value -> Res (list Byte.byte);
}.

Definition limiter (sc : Scenario) (event : HttpEvent) (p : Proc)
  : Res RateLimitResult * Proc :=
  if used p <? quota sc then
    (Ok {| rl_success := true; rl_status := 200; rl_headers := ∅;
           rl_error := VUndefined;
           rl_remaining := quota sc - used p - 1;
           rl_resetTime := clock p + 60000 |},
     {| clock := clock p; used := used p + 1; usage_log := usage_log p;
        cost_log := cost_log p; providers_made := providers_made p;
        mode := mode p |})
  else
    (Ok {| rl_success := false; rl_status := 429;
           rl_headers :=
             <["X-RateLimit-Remaining" := "0"]>
             (<["X-RateLimit-Reset" := Z_toString (clock p + 60000)]> ∅);
           rl_error := VStr "Rate limit exceeded";
           rl_remaining := 0;
           rl_resetTime := clock p + 60000 |}, p).

Definition env (sc : Scenario) : Env Proc :=
  {| rateLimitMiddleware := limiter sc;
     JSON_parse := parse sc;
     captureStack := fun m => m +:+ "
  at exports.handler";
     isCaptchaRequired := fun p => (Ok (captcha_required sc), p);
     verifyCaptcha := fun tok p => (verify sc tok, p);
     LeaseInputSchema_safeParse := fun v p => (Ok (input_schema sc v), p);
     LeaseOutputSchema_safeParse := fun v p => (Ok (output_schema sc v), p);
     createLLMProvider := fun p =>
       (Ok (providers_made p),
        {| clock := clock p; used := used p; usage_log := usage_log p;
           cost_log := cost_log p; providers_made := Datatypes.S (providers_made p);
           mode := mode p |});
     generateLease := fun _ v p => (generator sc v, p);
     logTokenUsage := fun u p =>
       (Ok tt,
        {| clock := clock p; used := used p; usage_log := usage_log p ++ [u];
           cost_log := cost_log p; providers_made := providers_made p;
           mode := mode p |});
     trackDailyCost := fun c p =>
       (Ok tt,
        {| clock := clock p; used := used p; usage_log := usage_log p;
           cost_log := cost_log p ++ [c]; providers_made := providers_made p;
           mode := mode p |});
     generateLeaseDocx := fun v p => (renderer sc v, p);
     getDocumentMimeType := fun _ =>
       "application/vnd.openxmlformats-officedocument.wordprocessingml.document";
     getDocumentExtension := fun _ => ".docx";
     Date_now := fun p => (clock p, p);
     Date_toISOString := fun t => Z_toString t;
     NODE_ENV := mode |}.

(** A minimal valid request: one tenant, required fields only. *)
Definition minimal_input : Value :=
  VObj [("jurisdiction", VObj [("country", VStr "US")]);
        ("financials", VObj [("monthlyRent", VNum (NInt 1500));
                             ("deposit", VNum (NInt 1500))]);
        ("landlord", VObj [("name", VStr "L"); ("address", VStr "1 Main St")]);
        ("tenant", VObj [("name", VStr "T")])].

Definition minimal_text : string := JSON_stringify minimal_input.

Definition with_token (tok : string) : Value :=
  match minimal_input with
  | VObj fields => VObj (fields ++ [("captchaToken", VStr tok)])
  | v => v
  end.

Definition syntax_error : Exn :=
  ErrorObj "Unexpected token" "SyntaxError: Unexpected token
  at JSON.parse (<anonymous>)".

(** [JSON.parse] on the texts the scenarios send. *)
Definition parse_known (text : string) : Res Value :=
  if String.eqb text minimal_text then Ok minimal_input
  else if String.eqb text (JSON_stringify (with_token "good")) then Ok (with_token "good")
  else if String.eqb text (JSON_stringify (with_token "bad")) then Ok (with_token "bad")
  else if String.eqb text "null" then Ok VNull
  else if String.eqb text "{}" then Ok (VObj [])
  else Throw syntax_error.

Definition has_rent (v : Value) : bool :=
  match lookup_field "monthlyRent" (
    match lookup_field "financials" (match v with VObj f => f | _ => [] end) with
    | VObj f => f | _ => [] end) with
  | VUndefined => false
  | _ => true
  end.

Definition rent_required : ZodIssue :=
  {| issue_code := "invalid_type";
     issue_path := [PKey "financials"; PKey "monthlyRent"];
     issue_message := "Required";
     issue_extra := [("expected", VStr "number"); ("received", VStr "undefined")] |}.

(** A schema that requires [financials.monthlyRent]. *)
Definition schema (v : Value) : SafeParse :=
  if has_rent v then ParseSuccess v else ParseFailure [rent_required].

Definition echo (v : Value) : Res GenResult :=
  Ok {| leaseData := v;
        tokenUsage := VObj [("prompt", VNum (NInt 100)); ("completion", VNum (NInt 200))];
        estimatedCost := VNum (NFrac "0.0123") |}.

Definition four_bytes : list Byte.byte := [Byte.x50; Byte.x4b; Byte.x03; Byte.x04].

(** The end-to-end scenario of the spec: echoing generator, renderer
    returning a fixed 4-byte buffer. *)
Definition happy : Scenario :=
  {| quota := 10; parse := parse_known; captcha_required := false;
     verify := fun _ => Ok true; input_schema := schema;
     generator := echo; output_schema := schema;
     renderer := fun _ => Ok four_bytes |}.

Definition connection_refused : Exn :=
  ErrorObj "connect ECONNREFUSED 10.0.0.7:443"
    "Error: connect ECONNREFUSED 10.0.0.7:443
  at TCPConnectWrap.afterConnect [as oncomplete] (node:net:1555:16)".

(** The generation backend is unreachable. *)
Definition backend_down : Scenario :=
  {| quota := 10; parse := parse_known; captcha_required := false;
     verify := fun _ => Ok true; input_schema := schema;
     generator := fun _ => Throw connection_refused; output_schema := schema;
     renderer := fun _ => Ok four_bytes |}.


(** The generator leaves [financials.monthlyRent] out. *)
Definition drops_rent : Scenario :=
  {| quota := 10; parse := parse_known; captcha_required := false;
     verify := fun _ => Ok true; input_schema := schema;
     generator := fun _ =>
       Ok {| leaseData := VObj [("financials", VObj [("deposit", VNum (NInt 1500))])];
             tokenUsage := VObj [("prompt", VNum (NInt 100));
                                 ("completion", VNum (NInt 200))];
             estimatedCost := VNum (NFrac "0.0123") |};
     output_schema := schema;
     renderer := fun _ => Ok four_bytes |}.

(** Challenge verification is on; the service accepts only ["good"]. *)
Definition guarded : Scenario :=
  {| quota := 10; parse := parse_known; captcha_required := true;
     verify := fun tok =>
       Ok (match tok with VStr t => String.eqb t "good" | _ => false end);
     input_schema := schema;
     generator := echo; output_schema := schema;
     renderer := fun _ => Ok four_bytes |}.

Definition fresh : Proc :=
  {| clock := 1700000000000; used := 0; usage_log := []; cost_log := [];
     providers_made := 0; mode := Some "production" |}.

(** The process after one request that got past the rate limiter and
    no further than validation. *)
Definition counted : Proc :=
  {| clock := 1700000000000; used := 1; usage_log := []; cost_log := [];
     providers_made := 0; mode := Some "production" |}.

Definition exhausted : Proc :=
  {| clock := 1700000000000; used := 10; usage_log := []; cost_log := [];
     providers_made := 0; mode := Some "production" |}.

Definition post (text : string) : HttpEvent :=
  {| httpMethod := "POST"; ev_headers := ∅; ev_body := Some text |}.

Definition options : HttpEvent :=
  {| httpMethod := "OPTIONS"; ev_headers := ∅; ev_body := None |}.

(** *** The scenarios, run *)

Definition response_of (o : Res Response * Proc * list Event) : Response :=
  match o with
  | (Ok r, _, _) => r
  | (Throw _, _, _) => json_response 0 VUndefined
  end.

Definition happy_resp : Response := Eval vm_compute in
  response_of (run (handler (env happy) (post minimal_text)) fresh).
Definition happy_final : Proc := Eval vm_compute in
  snd (fst (run (handler (env happy) (post minimal_text)) fresh)).
Definition happy_trace : list Event := Eval vm_compute in
  snd (run (handler (env happy) (post minimal_text)) fresh).


Definition exhausted_resp : Response := Eval vm_compute in
  response_of (run (handler (env happy) (post minimal_text)) exhausted).
Definition exhausted_trace : list Event := Eval vm_compute in
  snd (run (handler (env happy) (post minimal_text)) exhausted).

Definition preflight_resp : Response := Eval vm_compute in
  response_of (run (handler (env happy) options) fresh).

Definition down_resp : Response := Eval vm_compute in
  response_of (run (handler (env backend_down) (post minimal_text)) fresh).
Definition down_final : Proc := Eval vm_compute in
  snd (fst (run (handler (env backend_down) (post minimal_text)) fresh)).
Definition down_trace : list Event := Eval vm_compute in
  snd (run (handler (env backend_down) (post minimal_text)) fresh).


Definition norent_resp : Response := Eval vm_compute in
  response_of (run (handler (env drops_rent) (post minimal_text)) fresh).
Definition norent_final : Proc := Eval vm_compute in
  snd (fst (run (handler (env drops_rent) (post minimal_text)) fresh)).
Definition norent_trace : list Event := Eval vm_compute in
  snd (run (handler (env drops_rent) (post minimal_text)) fresh).


Definition badtoken_text : string := Eval vm_compute in
  JSON_stringify (with_token "bad").
Definition badtoken_resp : Response := Eval vm_compute in
  response_of (run (handler (env guarded) (post badtoken_text)) fresh).
Definition badtoken_trace : list Event := Eval vm_compute in
  snd (run (handler (env guarded) (post badtoken_text)) fresh).

Definition nullbody_resp : Response := Eval vm_compute in
  response_of (run (handler (env guarded) (post "null")) fresh).
Definition nullbody_trace : list Event := Eval vm_compute in
  snd (run (handler (env guarded) (post "null")) fresh).

Definition notjson_resp : Response := Eval vm_compute in
  response_of (run (handler (env happy) (post "{")) fresh).
Definition notjson_trace : list Event := Eval vm_compute in
  snd (run (handler (env happy) (post "{")) fresh).

End Stub.

(** ** Further readings of a run *)

Definition is_rate_limit (e : Event) : bool :=
  match e with ERateLimit _ _ => true | _ => false end.
Definition is_console_log (e : Event) : bool :=
  match e with EConsoleLog _ _ => true | _ => false end.
Definition is_console_error (e : Event) : bool :=
  match e with EConsoleError _ _ => true | _ => false end.
Definition is_output_parse (e : Event) : bool :=
  match e with EOutputParse _ _ => true | _ => false end.

(** The reply to a preflight request (lines 17-23). *)
Definition preflight_response : Response :=
  {| statusCode := 200;
     headers := cors_headers;
     body := EmptyString;
     isBase64Encoded := false |}.

(** The header names of a success response (lines 117-123). *)
Definition success_header_names : list string :=
  ["Content-Type"; "Content-Disposition"; "X-Rate-Limit-Remaining";
   "X-Rate-Limit-Reset"; "Access-Control-Allow-Origin";
   "Access-Control-Allow-Headers"; "Access-Control-Allow-Methods"].

(** The characters of base64 text. *)
Definition is_base64_char (c : ascii) : bool :=
  match base64_index c with
  | Some _ => true
  | None => Ascii.eqb c "="
  end.

Fixpoint all_base64 (s : string) : bool :=
  match s with
  | EmptyString => true
  | String c rest => is_base64_char c && all_base64 rest
  end.

(** ** Further scenarios *)

Module Cases.

(** A GET request whose body is not JSON. *)
Definition get_notjson : HttpEvent :=
  {| httpMethod := "GET"; ev_headers := ∅; ev_body := Some "{" |}.

Definition get_resp : Response := Eval vm_compute in
  Stub.response_of (run (handler (Stub.env Stub.happy) get_notjson) Stub.fresh).
Definition get_trace : list Event := Eval vm_compute in
  snd (run (handler (Stub.env Stub.happy) get_notjson) Stub.fresh).

(** The generator throws a text, not an [Error]. *)
Definition throws_text : Stub.Scenario :=
  {| Stub.quota := 10; Stub.parse := Stub.parse_known;
     Stub.captcha_required := false;
     Stub.verify := fun _ => Ok true; Stub.input_schema := Stub.schema;
     Stub.generator := fun _ => Throw (NonError (VStr "sk-live-key rejected"));
     Stub.output_schema := Stub.schema;
     Stub.renderer := fun _ => Ok Stub.four_bytes |}.

Definition text_resp : Response := Eval vm_compute in
  Stub.response_of
    (run (handler (Stub.env throws_text) (Stub.post Stub.minimal_text)) Stub.fresh).
Definition text_final : Stub.Proc := Eval vm_compute in
  snd (fst (run (handler (Stub.env throws_text) (Stub.post Stub.minimal_text))
                Stub.fresh)).
Definition text_trace : list Event := Eval vm_compute in
  snd (run (handler (Stub.env throws_text) (Stub.post Stub.minimal_text)) Stub.fresh).

(** A body whose [captchaToken] is the number 1. *)
Definition numeric_token : Value :=
  match Stub.minimal_input with
  | VObj fields => VObj (fields ++ [("captchaToken", VNum (NInt 1))])
  | v => v
  end.

Definition numeric_text : string := Eval vm_compute in JSON_stringify numeric_token.

Definition guarded_numeric : Stub.Scenario :=
  {| Stub.quota := 10;
     Stub.parse := fun text =>
       if String.eqb text numeric_text then Ok numeric_token
       else Stub.parse_known text;
     Stub.captcha_required := true;
     Stub.verify := Stub.verify Stub.guarded;
     Stub.input_schema := Stub.schema;
     Stub.generator := Stub.echo; Stub.output_schema := Stub.schema;
     Stub.renderer := fun _ => Ok Stub.four_bytes |}.

Definition numeric_resp : Response := Eval vm_compute in
  Stub.response_of
    (run (handler (Stub.env guarded_numeric) (Stub.post numeric_text)) Stub.fresh).
Definition numeric_trace : list Event := Eval vm_compute in
  snd (run (handler (Stub.env guarded_numeric) (Stub.post numeric_text)) Stub.fresh).

(** A body with a token, sent while the challenge is off. *)
Definition goodtoken_text : string := Eval vm_compute in
  JSON_stringify (Stub.with_token "good").

Definition ignored_resp : Response := Eval vm_compute in
  Stub.response_of
    (run (handler (Stub.env Stub.happy) (Stub.post goodtoken_text)) Stub.fresh).
Definition ignored_final : Stub.Proc := Eval vm_compute in
  snd (fst (run (handler (Stub.env Stub.happy) (Stub.post goodtoken_text))
                Stub.fresh)).
Definition ignored_trace : list Event := Eval vm_compute in
  snd (run (handler (Stub.env Stub.happy) (Stub.post goodtoken_text)) Stub.fresh).

End Cases.

(** ** The lease form ([components/SimpleLeaseForm.tsx])

    The state of the component is a [LeaseFormData] record; every field of
    the form has a [value] expression that reads the state and an
    [onChange] handler that builds a partial record from the state of the
    render it was created in and hands it to [updateFormData]. *)

Module Form.

Record Jurisdiction := {
  country : string;
  state : option string;
  city : option string;
}.

Record Term := {
  startDate : string;
  endDate : option string;
  months : option Number;
  renewal : string;
}.

Record LateFee := {
  fee_type : string;
  fee_value : Number;
  graceDays : Number;
}.

Record Financials := {
  monthlyRent : Number;
  securityDeposit : Number;
  prorationMethod : string;
  utilitiesIncluded : list string;
  lateFee : option LateFee;
}.

Record Pets := {
  allowed : bool;
  fee : Number;
  deposit : Number;
  rent : Number;
}.

Record Rules := {
  smoking : string;
  subletting : string;
  alterations : string;
  insuranceRequired : bool;
  parking : option string;
}.

Record Notices := { delivery : string }.

Record Signatures := { method : string }.

Record Property := {
  address : string;
  type : option string;
  includeBedBath : option bool;
  bedrooms : option Number;
  bathrooms : option Number;
  zipCode : option string;
}.

Record Landlord := {
  landlord_name : string;
  landlord_address : string;
  landlord_email : option string;
}.

(** [{ name, email? }] *)
Record Party := {
  name : string;
  email : option string;
}.

(** [tenant]: one party or an array of parties. *)
Inductive Tenant :=
| One (p : Party)
| Many (parties : list Party).

Record LeaseFormData := {
  jurisdiction : Jurisdiction;
  term : Term;
  financials : Financials;
  pets : Pets;
  rules : Rules;
  notices : Notices;
  signatures : Signatures;
  property : Property;
  landlord : Landlord;
  tenant : Tenant;
  captchaToken : option string;
}.

(** [Partial<LeaseFormData>]: [None] is a key the object does not have. *)
Record Updates := {
  u_jurisdiction : option Jurisdiction;
  u_term : option Term;
  u_financials : option Financials;
  u_pets : option Pets;
  u_rules : option Rules;
  u_notices : option Notices;
  u_signatures : option Signatures;
  u_property : option Property;
  u_landlord : option Landlord;
  u_tenant : option Tenant;
  u_captchaToken : option string;
}.

Definition no_updates : Updates :=
  {| u_jurisdiction := None; u_term := None; u_financials := None;
     u_pets := None; u_rules := None; u_notices := None;
     u_signatures := None; u_property := None; u_landlord := None;
     u_tenant := None; u_captchaToken := None |}.

(** [a || b] on an optional string: the empty string and [undefined] are
    falsy. *)
Definition or_text (a : option string) (b : string) : string :=
  match a with
  | Some s => if String.eqb s EmptyString then b else s
  | None => b
  end.

(** [a || b] on a number: [0] and [NaN] are falsy. *)
Definition or_number (a : Number) (b : Number) : Number :=
  if truthy (VNum a) then a else b.

(** The initial state (lines 78-125); [today] is
    [new Date().toISOString().split('T')[0]]. *)
Definition initial (today : string) : LeaseFormData :=
  {| jurisdiction :=
       {| country := "US"; state := Some "CA"; city := Some "San Francisco" |};
     term :=
       {| startDate := today; endDate := None; months := Some (NInt 12);
          renewal := "none" |};
     financials :=
       {| monthlyRent := NInt 0; securityDeposit := NInt 0;
          prorationMethod := "actual_days"; utilitiesIncluded := [];
          lateFee := None |};
     pets := {| allowed := false; fee := NInt 0; deposit := NInt 0;
                rent := NInt 0 |};
     rules :=
       {| smoking := "prohibited"; subletting := "prohibited";
          alterations := "with_consent"; insuranceRequired := false;
          parking := None |};
     notices := {| delivery := "both" |};
     signatures := {| method := "e-sign" |};
     property :=
       {| address := EmptyString; type := Some "apartment";
          includeBedBath := None; bedrooms := None; bathrooms := None;
          zipCode := None |};
     landlord :=
       {| landlord_name := EmptyString; landlord_address := EmptyString;
          landlord_email := None |};
     tenant := One {| name := EmptyString; email := Some EmptyString |};
     captchaToken := None |}.

(** [updateFormData]: [setFormData(prev => ({ ...prev, ...updates }))]. *)
Definition updateFormData (prev : LeaseFormData) (updates : Updates)
  : LeaseFormData :=
  {| jurisdiction := default (jurisdiction prev) (u_jurisdiction updates);
     term := default (term prev) (u_term updates);
     financials := default (financials prev) (u_financials updates);
     pets := default (pets prev) (u_pets updates);
     rules := default (rules prev) (u_rules updates);
     notices := default (notices prev) (u_notices updates);
     signatures := default (signatures prev) (u_signatures updates);
     property := default (property prev) (u_property updates);
     landlord := default (landlord prev) (u_landlord updates);
     tenant := default (tenant prev) (u_tenant updates);
     captchaToken :=
       match u_captchaToken updates with
       | Some t => Some t
       | None => captchaToken prev
       end |}.

(** The fields of the form, by the [name] they give to [Field]. *)
Inductive FieldName :=
| PropertyAddress | PropertyType | LandlordName | LandlordAddress
| TenantName | MonthlyRent | SecurityDeposit | StartDate | Months.

Global Instance FieldName_eq_dec : EqDecision FieldName.
Proof. solve_decision. Defined.

(** The top-level key of the state a field writes. *)
Inductive Key :=
| KProperty | KLandlord | KTenant | KFinancials | KTerm.

Definition key_of (f : FieldName) : Key :=
  match f with
  | PropertyAddress | PropertyType => KProperty
  | LandlordName | LandlordAddress => KLandlord
  | TenantName => KTenant
  | MonthlyRent | SecurityDeposit => KFinancials
  | StartDate | Months => KTerm
  end.

(** What a field shows: a text or a number. *)
Inductive Shown :=
| SText (s : string)
| SNum (n : Number).

Section Component.
Variable parseFloat : string -> Number.
Variable parseInt : string -> Number.

(** The [value] expression of each field. *)
Definition value_of (f : FieldName) (formData : LeaseFormData) : Shown :=
  match f with
  | PropertyAddress => SText (address (property formData))
  | PropertyType => SText (or_text (type (property formData)) "apartment")
  | LandlordName => SText (landlord_name (landlord formData))
  | LandlordAddress => SText (landlord_address (landlord formData))
  | TenantName =>
      match tenant formData with
      | Many parties =>
          SText (or_text (option_map name (head parties)) EmptyString)
      | One p => SText (name p)
      end
  | MonthlyRent => SNum (monthlyRent (financials formData))
  | SecurityDeposit => SNum (securityDeposit (financials formData))
  | StartDate => SText (startDate (term formData))
  | Months =>
      SNum (match months (term formData) with
            | Some m => or_number m (NInt 12)
            | None => NInt 12
            end)
  end.

(** The argument the [onChange] handler of each field passes to
    [updateFormData], for the [formData] of the render that created the
    handler and the [value] the field reports. *)
Definition onChange (f : FieldName) (formData : LeaseFormData) (value : string)
  : Updates :=
  let p := property formData in
  let l := landlord formData in
  let fin := financials formData in
  let t := term formData in
  match f with
  | PropertyAddress =>
      {| u_jurisdiction := None; u_term := None; u_financials := None;
         u_pets := None; u_rules := None; u_notices := None;
         u_signatures := None;
         u_property :=
           Some {| address := value; type := type p;
                   includeBedBath := includeBedBath p; bedrooms := bedrooms p;
                   bathrooms := bathrooms p; zipCode := zipCode p |};
         u_landlord := None; u_tenant := None; u_captchaToken := None |}
  | PropertyType =>
      {| u_jurisdiction := None; u_term := None; u_financials := None;
         u_pets := None; u_rules := None; u_notices := None;
         u_signatures := None;
         u_property :=
           Some {| address := address p; type := Some value;
                   includeBedBath := includeBedBath p; bedrooms := bedrooms p;
                   bathrooms := bathrooms p; zipCode := zipCode p |};
         u_landlord := None; u_tenant := None; u_captchaToken := None |}
  | LandlordName =>
      {| u_jurisdiction := None; u_term := None; u_financials := None;
         u_pets := None; u_rules := None; u_notices := None;
         u_signatures := None; u_property := None;
         u_landlord :=
           Some {| landlord_name := value;
                   landlord_address := landlord_address l;
                   landlord_email := landlord_email l |};
         u_tenant := None; u_captchaToken := None |}
  | LandlordAddress =>
      {| u_jurisdiction := None; u_term := None; u_financials := None;
         u_pets := None; u_rules := None; u_notices := None;
         u_signatures := None; u_property := None;
         u_landlord :=
           Some {| landlord_name := landlord_name l;
                   landlord_address := value;
                   landlord_email := landlord_email l |};
         u_tenant := None; u_captchaToken := None |}
  | TenantName =>
      {| u_jurisdiction := None; u_term := None; u_financials := None;
         u_pets := None; u_rules := None; u_notices := None;
         u_signatures := None; u_property := None; u_landlord := None;
         u_tenant :=
           Some (match tenant formData with
                 | Many _ => Many [{| name := value; email := Some EmptyString |}]
                 | One party =>
                     One {| name := value;
                            email := Some (or_text (email party) EmptyString) |}
                 end);
         u_captchaToken := None |}
  | MonthlyRent =>
      {| u_jurisdiction := None; u_term := None;
         u_financials :=
           Some {| monthlyRent := or_number (parseFloat value) (NInt 0);
                   securityDeposit := securityDeposit fin;
                   prorationMethod := prorationMethod fin;
                   utilitiesIncluded := utilitiesIncluded fin;
                   lateFee := lateFee fin |};
         u_pets := None; u_rules := None; u_notices := None;
         u_signatures := None; u_property := None; u_landlord := None;
         u_tenant := None; u_captchaToken := None |}
  | SecurityDeposit =>
      {| u_jurisdiction := None; u_term := None;
         u_financials :=
           Some {| monthlyRent := monthlyRent fin;
                   securityDeposit := or_number (parseFloat value) (NInt 0);
                   prorationMethod := prorationMethod fin;
                   utilitiesIncluded := utilitiesIncluded fin;
                   lateFee := lateFee fin |};
         u_pets := None; u_rules := None; u_notices := None;
         u_signatures := None; u_property := None; u_landlord := None;
         u_tenant := None; u_captchaToken := None |}
  | StartDate =>
      {| u_jurisdiction := None;
         u_term :=
           Some {| startDate := value; endDate := endDate t;
                   months := months t; renewal := renewal t |};
         u_financials := None; u_pets := None; u_rules := None;
         u_notices := None; u_signatures := None; u_property := None;
         u_landlord := None; u_tenant := None; u_captchaToken := None |}
  | Months =>
      {| u_jurisdiction := None;
         u_term :=
           Some {| startDate := startDate t; endDate := endDate t;
                   months := Some (or_number (parseInt value) (NInt 12));
                   renewal := renewal t |};
         u_financials := None; u_pets := None; u_rules := None;
         u_notices := None; u_signatures := None; u_property := None;
         u_landlord := None; u_tenant := None; u_captchaToken := None |}
  end.

(** A change event of field [f], handled by the handler of the render
    that showed [rendered], when the state has become [prev]. *)
Definition handle (f : FieldName) (rendered : LeaseFormData) (value : string)
    (prev : LeaseFormData) : LeaseFormData :=
  updateFormData prev (onChange f rendered value).

(** A change event handled in the render that shows the current state. *)
Definition edit (f : FieldName) (value : string) (formData : LeaseFormData)
  : LeaseFormData :=
  handle f formData value formData.

(** A sequence of change events, each handled after a re-render. *)
Definition edits (l : list (FieldName * string)) (formData : LeaseFormData)
  : LeaseFormData :=
  fold_left (fun fd ev => edit (fst ev) (snd ev) fd) l formData.

(** What [handleSubmit] does with the submit event. *)
Inductive Effect :=
| PreventDefault
| OnGenerate (data : LeaseFormData).

Definition handleSubmit (formData : LeaseFormData) : list Effect :=
  [PreventDefault; OnGenerate formData].

End Component.

Definition is_nan (n : Number) : bool :=
  match n with NNaN => true | _ => false end.

(** A number [||] lets through: neither [0] nor [NaN]. *)
Definition passes_or (n : Number) : bool := truthy (VNum n).

(** Test doubles for [parseFloat] and [parseInt] on the texts the
    examples type. *)
Definition parse_demo (text : string) : Number :=
  if String.eqb text "2500" then NInt 2500
  else if String.eqb text "-5" then NInt (-5)
  else if String.eqb text "0" then NInt 0
  else if String.eqb text "12.5" then NFrac "12.5"
  else NNaN.

(** The parts of the state no handler writes. *)
Definition untouched (fd : LeaseFormData) :=
  (jurisdiction fd, pets fd, rules fd, notices fd, signatures fd,
   captchaToken fd,
   (endDate (term fd), renewal (term fd)),
   (prorationMethod (financials fd), utilitiesIncluded (financials fd),
    lateFee (financials fd)),
   (includeBedBath (property fd), bedrooms (property fd),
    bathrooms (property fd), zipCode (property fd)),
   landlord_email (landlord fd)).

(** The amounts are numbers and the duration is a number other than
    [0]. *)
Definition sane (fd : LeaseFormData) : Prop :=
  is_nan (monthlyRent (financials fd)) = false /\
  is_nan (securityDeposit (financials fd)) = false /\
  match months (term fd) with
  | Some m => passes_or m = true
  | None => True
  end.

End Form.

(** ** Exploring the runs of the handler *)

(** Unfolds the monad and exposes the next collaborator call. *)
Ltac expose :=
  cbv beta iota zeta delta
    [handler try_catch pipeline on_error bind call call_pure eval read emit
     when ret return_ run negb json_response app
     rl_success rl_status rl_headers rl_error rl_remaining rl_resetTime
     leaseData tokenUsage estimatedCost].

(** Splits on the outcome of the next call, until the run has ended. *)
Ltac next_call :=
  match goal with
  | |- context [if ?b then _ else _] =>
      is_var b; destruct b
  | |- context [match ?x with ParseSuccess _ => _ | ParseFailure _ => _ end] =>
      is_var x; destruct x
  | |- context [match ?x with Build_RateLimitResult _ _ _ _ _ _ => _ end] =>
      is_var x; destruct x
  | |- context [match ?x with Build_GenResult _ _ _ => _ end] =>
      is_var x; destruct x
  | |- context [if String.eqb ?a ?b then _ else _] =>
      destruct (String.eqb a b) eqn:?
  | |- context [match ?f ?env ?a ?b ?s with _ => _ end] =>
      is_var env; destruct (f env a b s) as [[?|?] ?] eqn:?
  | |- context [match ?f ?env ?a ?s with _ => _ end] =>
      is_var env; destruct (f env a s) as [[?|?] ?] eqn:?
  | |- context [match Date_now ?env ?s with _ => _ end] =>
      destruct (Date_now env s) as [? ?] eqn:?
  | |- context [match ?f ?env ?s with _ => _ end] =>
      is_var env; destruct (f env s) as [[?|?] ?] eqn:?
  | |- context [match JSON_parse ?env ?t with _ => _ end] =>
      destruct (JSON_parse env t) as [?|?] eqn:?
  | |- context [match get_prop ?c ?v ?k with _ => _ end] =>
      destruct (get_prop c v k) as [?|?] eqn:?
  | |- context [if truthy ?v then _ else _] =>
      destruct (truthy v) eqn:?
  end.

Ltac explore := expose; repeat (next_call; expose).

(** Every run of the handler resolves: no exception escapes it. *)
Lemma handler_resolves {S} (env : Env S) event s :
  Resolves env event s (fun _ _ _ => True).
Proof.
  unfold Resolves. explore; eexists _, _, _; (split; [reflexivity | exact I]).
Qed.

(** ** Helper lemmas *)



(** *** Occurrences in strings *)

Lemma starts_with_app (p b : string) : starts_with p (p +:+ b) = true.
Proof.
  induction p as [|c p IH]; simpl; [reflexivity|].
  now rewrite Ascii.eqb_refl.
Qed.

Lemma starts_with_app_l (p t b : string) :
  starts_with p t = true -> starts_with p (t +:+ b) = true.
Proof.
  revert t. induction p as [|c p IH]; intros t H; [reflexivity|].
  destruct t as [|c' t]; simpl in H |- *; [discriminate|].
  apply andb_prop in H as [-> H]. now rewrite (IH _ H).
Qed.

Lemma contains_app_l (p t b : string) :
  contains p t = true -> contains p (t +:+ b) = true.
Proof.
  induction t as [|c t IH]; cbn [contains]; intros H.
  - rewrite orb_false_r in H. destruct p; [|discriminate H].
    simpl. now destruct b.
  - change (String c t +:+ b) with (String c (t +:+ b)).
    cbn [contains]. apply orb_prop in H as [H|H].
    + pose proof (starts_with_app_l _ (String c t) b H) as E.
      change (String c t +:+ b) with (String c (t +:+ b)) in E.
      now rewrite E.
    + rewrite (IH H). apply orb_true_r.
Qed.

Lemma contains_app_r (p a t : string) :
  contains p t = true -> contains p (a +:+ t) = true.
Proof.
  intros H. induction a as [|c a IH]; [exact H|].
  change (String c a +:+ t) with (String c (a +:+ t)).
  cbn [contains]. rewrite IH. apply orb_true_r.
Qed.

Lemma contains_refl (p : string) : contains p p = true.
Proof.
  assert (H : starts_with p p = true).
  { induction p as [|c p IH]; simpl; [reflexivity|].
    now rewrite Ascii.eqb_refl. }
  destruct p; cbn [contains]; now rewrite H.
Qed.


(** *** The message inside the 500 body *)

Lemma append_assoc' (a b c : string) : (a +:+ b) +:+ c = a +:+ (b +:+ c).
Proof.
  induction a as [|x a IH]; [reflexivity|].
  change (String x ((a +:+ b) +:+ c) = String x (a +:+ b +:+ c)).
  now rewrite IH.
Qed.

Lemma escape_app (a b : string) : escape (a +:+ b) = escape a +:+ escape b.
Proof.
  induction a as [|c a IH]; [reflexivity|].
  change (escape_char c +:+ escape (a +:+ b) =
          (escape_char c +:+ escape a) +:+ escape b).
  now rewrite IH, append_assoc'.
Qed.

Lemma internal_error_body_message (e : Exn) (details : Value) :
  contains (escape (message_of e)) (internal_error_body e details) = true.
Proof.
  unfold internal_error_body, JSON_stringify.
  cbn [stringify_opt].
  apply contains_app_r, contains_app_l.
  do 4 apply contains_app_r. do 4 apply contains_app_r.
  do 3 apply contains_app_r. apply contains_app_l.
  unfold quote. apply contains_app_r, contains_app_l.
  rewrite !escape_app.
  apply contains_app_r, contains_app_l, contains_refl.
Qed.

(** *** Base64 *)

Lemma base64_index_char (i : N) :
  (i < 64)%N ->
  base64_index (base64_char i) = Some i /\ Ascii.eqb (base64_char i) "=" = false.
Proof.
  intros H. rewrite <- (N2Nat.id i). 
  assert (Hk : (N.to_nat i < 64)%nat) by lia.
  generalize dependent (N.to_nat i). clear. intros k Hk.
  do 64 (destruct k as [|k]; [split; vm_compute; reflexivity|]). lia.
Qed.

Lemma sextets_rebuild (n : N) :
  (n / 262144 * 262144 + (n / 4096) mod 64 * 4096 + (n / 64) mod 64 * 64
   + n mod 64 = n)%N.
Proof.
  pose proof (N.div_mod n 64 ltac:(lia)) as H1.
  pose proof (N.div_mod (n / 64) 64 ltac:(lia)) as H2.
  pose proof (N.div_mod (n / 4096) 64 ltac:(lia)) as H4.
  rewrite N.Div0.div_div in H2. change (64 * 64)%N with 4096%N in H2.
  rewrite N.Div0.div_div in H4. change (4096 * 64)%N with 262144%N in H4.
  lia.
Qed.

Lemma sextets_bounded (n : N) :
  (n < 16777216 ->
   n / 262144 < 64 /\ (n / 4096) mod 64 < 64 /\ (n / 64) mod 64 < 64 /\
   n mod 64 < 64)%N.
Proof.
  intros H. repeat split; try (apply N.mod_lt; lia).
  apply N.Div0.div_lt_upper_bound. lia.
Qed.

Lemma octets_of_three (a b c : N) :
  (a <= 255 -> b <= 255 -> c <= 255 ->
   let n := a * 65536 + b * 256 + c in
   n / 65536 = a /\ (n / 256) mod 256 = b /\ n mod 256 = c)%N.
Proof.
  intros Ha Hb Hc n. subst n. repeat split.
  - symmetry. apply (N.div_unique _ _ _ (b * 256 + c)); lia.
  - assert (E : ((a * 65536 + b * 256 + c) / 256 = a * 256 + b)%N).
    { symmetry. apply (N.div_unique _ _ _ c); lia. }
    rewrite E. symmetry. apply (N.mod_unique _ _ a); lia.
  - symmetry. apply (N.mod_unique _ _ (a * 256 + b)); lia.
Qed.

Lemma sextets_of_two (n : N) :
  (n < 65536 ->
   n / 1024 < 64 /\ (n / 16) mod 64 < 64 /\ n mod 16 * 4 < 64 /\
   n / 1024 * 1024 + (n / 16) mod 64 * 16 + n mod 16 * 4 / 4 = n)%N.
Proof.
  intros H.
  pose proof (N.mod_lt n 16 ltac:(lia)).
  pose proof (N.div_mod n 16 ltac:(lia)) as H1.
  pose proof (N.div_mod (n / 16) 64 ltac:(lia)) as H2.
  rewrite N.Div0.div_div in H2. change (16 * 64)%N with 1024%N in H2.
  rewrite N.div_mul by lia.
  repeat split; try lia.
  - apply N.Div0.div_lt_upper_bound. lia.
  - apply N.mod_lt. lia.
Qed.

Lemma sextets_of_one (n : N) :
  (n < 256 ->
   n / 4 < 64 /\ n mod 4 * 16 < 64 /\ n / 4 * 4 + n mod 4 * 16 / 16 = n)%N.
Proof.
  intros H.
  pose proof (N.mod_lt n 4 ltac:(lia)).
  pose proof (N.div_mod n 4 ltac:(lia)) as H1.
  rewrite N.div_mul by lia.
  repeat split; try lia.
  apply N.Div0.div_lt_upper_bound. lia.
Qed.

Lemma octets_of_two (a b : N) :
  (a <= 255 -> b <= 255 ->
   (a * 256 + b) / 256 = a /\ (a * 256 + b) mod 256 = b)%N.
Proof.
  intros Ha Hb. split.
  - symmetry. apply (N.div_unique _ _ _ b); lia.
  - symmetry. apply (N.mod_unique _ _ a); lia.
Qed.

Lemma list_ind3 {A} (P : list A -> Prop) :
  P [] -> (forall a, P [a]) -> (forall a b, P [a; b]) ->
  (forall a b c l, P l -> P (a :: b :: c :: l)) ->
  forall l, P l.
Proof.
  intros H0 H1 H2 H3.
  fix IH 1. intros [|a [|b [|c l]]];
    [exact H0 | apply H1 | apply H2 | apply H3, IH].
Qed.

(** Decoding the base64 text of a buffer gives the buffer back. *)
Lemma base64_decode_encode (bytes : list Byte.byte) :
  base64_decode (base64 bytes) = Some bytes.
Proof.
  induction bytes as [|a|a b|a b c l IH] using list_ind3.
  - reflexivity.
  - pose proof (Byte.to_N_bounded a) as Ha.
    destruct (sextets_of_one (Byte.to_N a) ltac:(lia)) as (B0 & B1 & E).
    destruct (base64_index_char _ B0) as [I0 _].
    destruct (base64_index_char _ B1) as [I1 _].
    cbn [base64 base64_decode]. cbv zeta. rewrite I0, I1.
    change (Ascii.eqb "=" "=") with true. cbv iota.
    rewrite E. unfold bytes_of. cbn [mapM]. now rewrite Byte.of_to_N.
  - pose proof (Byte.to_N_bounded a) as Ha.
    pose proof (Byte.to_N_bounded b) as Hb.
    destruct (sextets_of_two (Byte.to_N a * 256 + Byte.to_N b) ltac:(lia))
      as (B0 & B1 & B2 & E).
    destruct (octets_of_two _ _ Ha Hb) as [Ea Eb].
    destruct (base64_index_char _ B0) as [I0 _].
    destruct (base64_index_char _ B1) as [I1 _].
    destruct (base64_index_char _ B2) as [I2 P2].
    cbn [base64 base64_decode]. cbv zeta. rewrite I0, I1, P2, I2.
    change (Ascii.eqb "=" "=") with true. cbv iota.
    rewrite E, Ea, Eb. unfold bytes_of. cbn [mapM].
    now rewrite !Byte.of_to_N.
  - pose proof (Byte.to_N_bounded a) as Ha.
    pose proof (Byte.to_N_bounded b) as Hb.
    pose proof (Byte.to_N_bounded c) as Hc.
    set (n := (Byte.to_N a * 65536 + Byte.to_N b * 256 + Byte.to_N c)%N).
    destruct (sextets_bounded n ltac:(subst n; lia)) as (B0 & B1 & B2 & B3).
    destruct (octets_of_three _ _ _ Ha Hb Hc) as (Ea & Eb & Ec).
    destruct (base64_index_char _ B0) as [I0 _].
    destruct (base64_index_char _ B1) as [I1 _].
    destruct (base64_index_char _ B2) as [I2 P2].
    destruct (base64_index_char _ B3) as [I3 P3].
    cbn [base64 base64_decode]. cbv zeta. fold n.
    rewrite I0, I1, P2, I2, P3, I3, IH.
    rewrite (sextets_rebuild n). subst n. rewrite Ea, Eb, Ec.
    unfold bytes_of. cbn [mapM]. now rewrite !Byte.of_to_N.
Qed.

(** *** Decimal text of a clock reading *)

Lemma string_of_uint_digits (d : Decimal.uint) :
  all_digits (NilEmpty.string_of_uint d) = true.
Proof. induction d; cbn [NilEmpty.string_of_uint all_digits]; auto. Qed.

Lemma Z_toString_digits (z : Z) :
  0 <= z -> Z_toString z <> EmptyString /\ all_digits (Z_toString z) = true.
Proof.
  intros Hz. unfold Z_toString.
  destruct z as [|p|p]; [split; [discriminate | reflexivity] | | lia].
  cbn [Z.to_int NilZero.string_of_int]. unfold NilZero.string_of_uint.
  pose proof (string_of_uint_digits (Pos.to_uint p)) as Hd.
  destruct (Pos.to_uint p); split; try discriminate; try reflexivity; exact Hd.
Qed.

(** *** Headers of the success response *)

Lemma success_headers_lookup (ct cd rem rst : string) :
  let h := spread
             (<["Content-Type" := ct]>
              (<["Content-Disposition" := cd]>
              (<["X-Rate-Limit-Remaining" := rem]>
              (<["X-Rate-Limit-Reset" := rst]> (∅ : gmap string string)))))
             cors_headers in
  h !! "Content-Type" = Some ct /\
  h !! "Content-Disposition" = Some cd /\
  h !! "X-Rate-Limit-Remaining" = Some rem /\
  h !! "X-Rate-Limit-Reset" = Some rst.
Proof.
  cbv zeta. unfold spread.
  repeat split; (rewrite lookup_union_r by reflexivity); now simplify_map_eq.
Qed.

(** Closes the goal [exists resp s' tr, run ... = ... /\ P resp s' tr] of a
    run that has ended, leaving [P] of that run. *)
Ltac finish := eexists _, _, _; split; [reflexivity | cbv beta].

(** Case analysis on a hypothesis [In e tr] for the trace of an ended run. *)
Ltac pick H :=
  cbn [In] in H;
  repeat match type of H with _ \/ _ => destruct H as [H | H] end;
  try discriminate H; try contradiction H;
  try (inversion H; try clear H; subst).

(** Finds an operation in the trace of an ended run. *)
Ltac in_trace := cbn [In]; repeat (first [left; reflexivity | right]).

(** Finds a given suffix at the end of the trace of an ended run. *)
Ltac find_suffix :=
  first
    [ exists []; reflexivity
    | lazymatch goal with
      | |- exists k, ?x :: ?rest = k ++ ?suf =>
          cut (exists k, rest = k ++ suf);
          [ intros (k & ->); exists (x :: k); reflexivity | find_suffix ]
      end ].

(** ** What the trace records *)

Lemma outcome_at {S A} (f : S -> Res A * S) (s0 s1 : S) (r : Res A) :
  f s0 = (r, s1) -> exists s, r = fst (f s).
Proof. intros H. exists s0. now rewrite H. Qed.

Lemma reading_at {S} (f : S -> Z * S) (s0 s1 : S) (t : Z) :
  f s0 = (t, s1) -> exists s, t = fst (f s).
Proof. intros H. exists s0. now rewrite H. Qed.

(** Every operation in the trace of a run is a call the handler made, with
    the arguments the source passes, and its recorded outcome is what the
    collaborator gave in the state it was called in. *)
Lemma trace_is_faithful {S} (env : Env S) event s :
  Resolves env event s (fun _ _ tr =>
    forall e, In e tr ->
      match e with
      | ERateLimit ev r =>
          ev = event /\ r = fst (rateLimitMiddleware env event s)
      | EJsonParse text r =>
          text = body_text event /\ r = JSON_parse env text
      | ECaptchaRequired r => exists s0, r = fst (isCaptchaRequired env s0)
      | EVerifyCaptcha tok r =>
          (exists b, JSON_parse env (body_text event) = Ok b /\
                     get_prop (captureStack env) b "captchaToken" = Ok tok /\
                     truthy tok = true) /\
          exists s0, r = fst (verifyCaptcha env tok s0)
      | EInputParse raw r =>
          JSON_parse env (body_text event) = Ok raw /\
          exists s0, r = fst (LeaseInputSchema_safeParse env raw s0)
      | ECreateProvider r => exists s0, r = fst (createLLMProvider env s0)
      | EGenerate p input r =>
          (exists raw, In (EInputParse raw (Ok (ParseSuccess input))) tr) /\
          In (ECreateProvider (Ok p)) tr /\
          exists s0, r = fst (generateLease env p input s0)
      | EOutputParse raw r =>
          (exists p input g, In (EGenerate p input (Ok g)) tr /\ raw = leaseData g) /\
          exists s0, r = fst (LeaseOutputSchema_safeParse env raw s0)
      | ELogTokenUsage usage r =>
          (exists p input g, In (EGenerate p input (Ok g)) tr /\ usage = tokenUsage g) /\
          exists s0, r = fst (logTokenUsage env usage s0)
      | ETrackDailyCost cost r =>
          (exists p input g, In (EGenerate p input (Ok g)) tr /\ cost = estimatedCost g) /\
          exists s0, r = fst (trackDailyCost env cost s0)
      | ERender lease r =>
          (exists p input g, In (EGenerate p input (Ok g)) tr /\ lease = leaseData g) /\
          exists s0, r = fst (generateLeaseDocx env lease s0)
      | EDateNow t | ENewDate t => exists s0, t = fst (Date_now env s0)
      | EConsoleLog _ _ | EConsoleError _ _ => True
      end).
Proof.
  unfold Resolves.
  explore; finish; intros e1 Hin; pick Hin.
  all: repeat match goal with
         | |- True => exact I
         | |- _ /\ _ => split
         | |- _ = _ => first [reflexivity | eassumption | (symmetry; eassumption)]
         | |- In _ _ => in_trace
         | |- exists b, _ = Ok b /\ _ =>
             eexists; split; [reflexivity | split; eassumption]
         | |- exists raw, In _ _ => eexists; in_trace
         | |- exists p input g, In _ _ /\ _ =>
             eexists _, _, _; split; [in_trace | reflexivity]
         | |- exists s, _ = fst _ =>
             first [ eapply outcome_at; eassumption
                   | eapply reading_at; eassumption ]
         | |- _ = fst _ =>
             match goal with
             | H : _ = (_, _) |- _ => rewrite H; reflexivity
             end
         end.
Qed.

(** * The claims *)



(** C3. When the rate limiter reports the quota exceeded, the response
    has the limiter's too-many-requests status, its headers carry the
    remaining quota and the reset time of the decision (every header of the
    decision is passed on), and the run consists of the limiter call
    alone: neither the provider factory nor the generator is called. *)
Theorem C3_rate_limited {S} (env : Env S) event s :
  Resolves env event s (fun resp _ tr =>
    forall d remaining reset,
      In (ERateLimit event (Ok d)) tr ->
      quota_exceeded d remaining reset ->
      statusCode resp = 429 /\
      (exists k, headers resp !! k = Some remaining) /\
      (exists k, headers resp !! k = Some reset) /\
      (forall k v, rl_headers d !! k = Some v -> headers resp !! k = Some v) /\
      body resp = JSON_stringify (VObj [("success", VBool false);
                                        ("error", rl_error d)]) /\
      tr = [ERateLimit event (Ok d)] /\
      calls is_create tr = 0%nat /\ calls is_generate tr = 0%nat).
Proof.
  unfold Resolves.
  explore; finish; intros d remaining reset Hin (Hs & Hst & (kr & Hr) & (kt & Ht));
    pick Hin; cbn in Hs, Hst; try discriminate Hs.
  cbn [statusCode headers body]. unfold spread.
  repeat split; auto.
  - exists kr. now apply lookup_union_Some_l.
  - exists kt. now apply lookup_union_Some_l.
  - intros k v Hk. now apply lookup_union_Some_l.
Qed.


(** C9. Every response carries the three CORS headers.  The headers of a
    rate-limit refusal are spread after them, so there they have the
    fixed values as long as the limiter sets no header of these names. *)
Theorem C9_cors_headers {S} (env : Env S) event s :
  Resolves env event s (fun resp _ tr =>
    cors_headers !! "Access-Control-Allow-Origin" = Some "*" /\
    is_Some (cors_headers !! "Access-Control-Allow-Headers") /\
    is_Some (cors_headers !! "Access-Control-Allow-Methods") /\
    forall k v,
      cors_headers !! k = Some v ->
      is_Some (headers resp !! k) /\
      ((forall d, In (ERateLimit event (Ok d)) tr -> rl_success d = false ->
                  rl_headers d !! k = None) ->
       headers resp !! k = Some v)).
Proof.
  assert (Ho : cors_headers !! "Access-Control-Allow-Origin" = Some "*")
    by reflexivity.
  assert (Hh : is_Some (cors_headers !! "Access-Control-Allow-Headers"))
    by (eexists; reflexivity).
  assert (Hm : is_Some (cors_headers !! "Access-Control-Allow-Methods"))
    by (eexists; reflexivity).
  unfold Resolves.
  explore; finish; (split; [exact Ho|]); (split; [exact Hh|]);
    (split; [exact Hm|]); clear Ho Hh Hm;
    intros k v Hk; cbn [headers]; unfold spread.
  all: first
    [ solve [ split; [rewrite Hk; eauto | intros _; exact Hk] ]
    | solve [ split;
              [ exists v; now apply lookup_union_Some_l
              | intros _; now apply lookup_union_Some_l ] ]
    | idtac ].
  (* the refusal of the rate limiter *)
  split.
  - destruct (rl_headers0 !! k) as [v'|] eqn:Hv.
    + exists v'. now apply lookup_union_Some_l.
    + exists v. rewrite lookup_union_r by exact Hv. exact Hk.
  - intros Hnone. rewrite lookup_union_r; [exact Hk|].
    apply (Hnone _ (or_introl eq_refl)). reflexivity.
Qed.

(** C6. A request whose document was rendered (so that every gate before
    it was passed) gets status 200, the content type of the document
    format, an attachment named [lease-<Date.now()><extension>], the
    remaining quota and reset time of the rate-limit decision, and the
    base64 text of exactly the renderer's buffer; with the [.docx]
    extension the name matches [lease-\d+\.docx]. *)
Theorem C6_success_response {S} (env : Env S) event s :
  Resolves env event s (fun resp _ tr =>
    forall d lease buf,
      In (ERateLimit event (Ok d)) tr ->
      In (ERender lease (Ok buf)) tr ->
      exists now,
        In (EDateNow now) tr /\
        let filename :=
          "lease-" +:+ Z_toString now +:+ getDocumentExtension env "docx" in
        statusCode resp = 200 /\
        headers resp !! "Content-Type" = Some (getDocumentMimeType env "docx") /\
        headers resp !! "Content-Disposition" =
          Some ("attachment; filename=" +:+ dquote +:+ filename +:+ dquote) /\
        headers resp !! "X-Rate-Limit-Remaining" = Some (Z_toString (rl_remaining d)) /\
        headers resp !! "X-Rate-Limit-Reset" = Some (Z_toString (rl_resetTime d)) /\
        body resp = base64 buf /\
        base64_decode (body resp) = Some buf /\
        isBase64Encoded resp = true /\
        (getDocumentExtension env "docx" = ".docx" -> 0 <= now ->
         lease_docx_name filename)).
Proof.
  unfold Resolves.
  explore; finish; intros d lease buf Hd Hr; pick Hr; pick Hd.
  all: eexists; split; [in_trace | cbv zeta].
  all: cbn [statusCode headers body isBase64Encoded rl_remaining rl_resetTime].
  all: match goal with
       | |- context [spread ?m cors_headers] =>
           match m with
           | <[_ := ?ct]> (<[_ := ?cd]> (<[_ := ?rem]> (<[_ := ?rst]> _))) =>
               destruct (success_headers_lookup ct cd rem rst)
                 as (Hct & Hcd & Hrem & Hrst)
           end
       end.
  all: repeat (split; [first [reflexivity | assumption
                              | apply base64_decode_encode] | ]).
  all: intros Hext Hnow; rewrite Hext;
       destruct (Z_toString_digits _ Hnow) as [Hne Hdig];
       eexists; repeat split; eassumption.
Qed.

(** C5, as the code has it.  An exception raised in the [try] block is
    first written to the console, with the clock reading as timestamp, and
    then answered by a 500 whose body embeds the message of the exception
    in every runtime mode; only the stack is withheld outside development
    mode, where the [details] property is left out. *)
Theorem C5_internal_error {S} (env : Env S) event s :
  Resolves env event s (fun resp s' tr =>
    forall e,
      raised env event tr e ->
      statusCode resp = 500 /\
      body resp =
        internal_error_body e
          (if bool_decide (NODE_ENV env s' = Some "development")
           then VStr (stack_of e) else VUndefined) /\
      contains (escape (message_of e)) (body resp) = true /\
      (NODE_ENV env s' <> Some "development" ->
       body resp =
         JSON_stringify
           (VObj [("success", VBool false);
                  ("error", VStr "Internal server error");
                  ("message", VStr ("An unexpected error occurred: " +:+
                                    message_of e +:+ ". Please try again."))])) /\
      exists t, error_log env e t `suffix_of` tr).
Proof.
  unfold Resolves.
  explore; finish; intros e0 [(ev & Hin & Hth) | (b & Hp & Hc & Hg)].
  all: try (pick Hin; try discriminate Hth).
  all: try (pick Hp; pick Hc; try congruence).
  all: try (cbn [thrown_by] in Hth; injection Hth as ->).
  all: try (match goal with
            | H : get_prop _ _ _ = Throw ?e |- _ =>
                rewrite H in Hg; injection Hg as ->
            end).
  all: cbn [statusCode body].
  all: (split; [reflexivity|]); (split; [reflexivity|]).
  all: (split; [apply internal_error_body_message|]).
  all: split;
    [ intros Hmode; rewrite bool_decide_eq_false_2 by exact Hmode; reflexivity
    | eexists; unfold error_log, suffix; find_suffix ].
Qed.

(** C5 as stated fails: in production mode, with the generation backend
    unreachable, the body of the 500 response spells out the message of
    the exception. *)
Lemma C5_counterexample :
  Stub.mode Stub.fresh = Some "production" /\
  exists resp s' tr,
    run (handler (Stub.env Stub.backend_down) (Stub.post Stub.minimal_text))
        Stub.fresh = (Ok resp, s', tr) /\
    In (EGenerate 0%nat Stub.minimal_input (Throw Stub.connection_refused)) tr /\
    statusCode resp = 500 /\
    contains "connect ECONNREFUSED 10.0.0.7:443" (body resp) = true.
Proof.
  split; [reflexivity|].
  exists Stub.down_resp, Stub.down_final, Stub.down_trace.
  split; [vm_compute; reflexivity|].
  split; [unfold Stub.down_trace; in_trace|]. split; reflexivity.
Qed.

(** A body [JSON.parse] cannot read is answered by the [catch] block: 500,
    and the input schema is never consulted. *)
Lemma unparseable_body_is_internal_error {S} (env : Env S) event s :
  Resolves env event s (fun resp _ tr =>
    forall e,
      In (EJsonParse (body_text event) (Throw e)) tr ->
      statusCode resp = 500 /\ calls is_input_parse tr = 0%nat).
Proof.
  unfold Resolves.
  explore; finish; intros e0 H; pick H; split; reflexivity.
Qed.

(** C7 at the failing input: a POST whose body is the text [{], which is
    not JSON, is answered with 500 and the message of the syntax error,
    not with 400 and field-level details; the input schema is not
    consulted. *)
Theorem C7_unparseable_body_gives_500 :
  exists resp s' tr,
    run (handler (Stub.env Stub.happy) (Stub.post "{")) Stub.fresh
      = (Ok resp, s', tr) /\
    In (EJsonParse "{" (Throw Stub.syntax_error)) tr /\
    statusCode resp = 500 /\
    body resp = internal_error_body Stub.syntax_error VUndefined /\
    calls is_input_parse tr = 0%nat.
Proof.
  exists Stub.notjson_resp, Stub.counted, Stub.notjson_trace.
  split; [vm_compute; reflexivity|].
  split; [unfold Stub.notjson_trace; in_trace|]. repeat split; reflexivity.
Qed.

(** The same defect on a body that is JSON but carries no object: with
    challenge verification required, the body [null] (or no body at all)
    makes the token read throw, and the answer is 500. *)
Lemma null_body_gives_500 :
  exists resp s' tr,
    run (handler (Stub.env Stub.guarded) (Stub.post "null")) Stub.fresh
      = (Ok resp, s', tr) /\
    statusCode resp = 500 /\ calls is_input_parse tr = 0%nat.
Proof.
  exists Stub.nullbody_resp, Stub.counted, Stub.nullbody_trace.
  split; [vm_compute; reflexivity|]. split; reflexivity.
Qed.





(** ** The scenarios *)

Lemma happy_run :
  run (handler (Stub.env Stub.happy) (Stub.post Stub.minimal_text)) Stub.fresh
  = (Ok Stub.happy_resp, Stub.happy_final, Stub.happy_trace).
Proof. vm_compute. reflexivity. Qed.

Lemma exhausted_run :
  run (handler (Stub.env Stub.happy) (Stub.post Stub.minimal_text)) Stub.exhausted
  = (Ok Stub.exhausted_resp, Stub.exhausted, Stub.exhausted_trace).
Proof. vm_compute. reflexivity. Qed.

Lemma preflight_run :
  run (handler (Stub.env Stub.happy) Stub.options) Stub.fresh
  = (Ok Stub.preflight_resp, Stub.fresh, []).
Proof. vm_compute. reflexivity. Qed.

Lemma down_run :
  run (handler (Stub.env Stub.backend_down) (Stub.post Stub.minimal_text)) Stub.fresh
  = (Ok Stub.down_resp, Stub.down_final, Stub.down_trace).
Proof. vm_compute. reflexivity. Qed.

Lemma norent_run :
  run (handler (Stub.env Stub.drops_rent) (Stub.post Stub.minimal_text)) Stub.fresh
  = (Ok Stub.norent_resp, Stub.norent_final, Stub.norent_trace).
Proof. vm_compute. reflexivity. Qed.


Lemma badtoken_run :
  run (handler (Stub.env Stub.guarded) (Stub.post Stub.badtoken_text)) Stub.fresh
  = (Ok Stub.badtoken_resp, Stub.counted, Stub.badtoken_trace).
Proof. vm_compute. reflexivity. Qed.

(** Replaces the run a theorem speaks of by the evaluated scenario. *)
Ltac at_run Hrun lemma :=
  rewrite lemma in Hrun; injection Hrun as <- <- <-.

(** ** The claims on the scenarios *)



(** A process whose quota is used up answers 429 with the limiter's
    headers and calls nothing else. *)
Lemma C3_rate_limited_witness :
  exists d,
    In (ERateLimit (Stub.post Stub.minimal_text) (Ok d)) Stub.exhausted_trace /\
    quota_exceeded d "0" "1700000060000" /\
    statusCode Stub.exhausted_resp = 429 /\
    headers Stub.exhausted_resp !! "X-RateLimit-Remaining" = Some "0" /\
    Stub.exhausted_trace = [ERateLimit (Stub.post Stub.minimal_text) (Ok d)].
Proof.
  destruct (C3_rate_limited (Stub.env Stub.happy)
              (Stub.post Stub.minimal_text) Stub.exhausted)
    as (resp & s' & tr & Hrun & H).
  at_run Hrun exhausted_run.
  eexists. split; [unfold Stub.exhausted_trace; in_trace|].
  match goal with
  | |- quota_exceeded ?d _ _ /\ _ =>
      assert (Hq : quota_exceeded d "0" "1700000060000")
        by (repeat split;
            [exists "X-RateLimit-Remaining" | exists "X-RateLimit-Reset"];
            vm_compute; reflexivity);
      destruct (H d _ _ ltac:(unfold Stub.exhausted_trace; in_trace) Hq)
        as (Hst & _ & _ & Hfwd & _ & Htr & _)
  end.
  split; [exact Hq|]. split; [exact Hst|].
  split; [apply Hfwd; vm_compute; reflexivity | exact Htr].
Defined.


(** An unreachable backend in production: 500, the message in the body,
    the console output at the end of the run. *)
Lemma C5_internal_error_witness :
  raised (Stub.env Stub.backend_down) (Stub.post Stub.minimal_text)
         Stub.down_trace Stub.connection_refused /\
  statusCode Stub.down_resp = 500 /\
  contains (escape "connect ECONNREFUSED 10.0.0.7:443") (body Stub.down_resp) = true /\
  exists t, error_log (Stub.env Stub.backend_down) Stub.connection_refused t
              `suffix_of` Stub.down_trace.
Proof.
  destruct (C5_internal_error (Stub.env Stub.backend_down)
              (Stub.post Stub.minimal_text) Stub.fresh)
    as (resp & s' & tr & Hrun & H).
  at_run Hrun down_run.
  assert (Hraised : raised (Stub.env Stub.backend_down)
                      (Stub.post Stub.minimal_text) Stub.down_trace
                      Stub.connection_refused).
  { left. exists (EGenerate 0%nat Stub.minimal_input (Throw Stub.connection_refused)).
    split; [unfold Stub.down_trace; in_trace | reflexivity]. }
  split; [exact Hraised|].
  destruct (H _ Hraised) as (Hst & _ & Hmsg & _ & Hlog). auto.
Defined.

(** The end-to-end scenario of the spec: a minimal valid input, an echoing
    generator and a renderer that returns four bytes give 200 with those
    four bytes, a [lease-<digits>.docx] attachment and the quota headers
    after one consumed request. *)
Lemma C6_success_response_witness :
  In (ERender Stub.minimal_input (Ok Stub.four_bytes)) Stub.happy_trace /\
  statusCode Stub.happy_resp = 200 /\
  body Stub.happy_resp = "UEsDBA==" /\
  base64_decode "UEsDBA==" = Some Stub.four_bytes /\
  headers Stub.happy_resp !! "X-Rate-Limit-Remaining" = Some "9" /\
  headers Stub.happy_resp !! "X-Rate-Limit-Reset" = Some "1700000060000" /\
  lease_docx_name "lease-1700000000000.docx".
Proof.
  destruct (C6_success_response (Stub.env Stub.happy)
              (Stub.post Stub.minimal_text) Stub.fresh)
    as (resp & s' & tr & Hrun & H).
  at_run Hrun happy_run.
  assert (Hr : In (ERender Stub.minimal_input (Ok Stub.four_bytes)) Stub.happy_trace)
    by (unfold Stub.happy_trace; in_trace).
  split; [exact Hr|].
  edestruct H as (now & Hnow & Hst & _ & _ & Hrem & Hrst & Hbody & Hdec & _ & Hname);
    [ unfold Stub.happy_trace; in_trace | exact Hr | ].
  split; [exact Hst|]. split; [exact Hbody|]. split; [exact Hdec|].
  split; [exact Hrem|]. split; [exact Hrst|].
  unfold Stub.happy_trace in Hnow. cbn [In] in Hnow.
  repeat match type of Hnow with _ \/ _ => destruct Hnow as [Hnow | Hnow] end;
    try discriminate Hnow; try contradiction Hnow.
  injection Hnow as <-. apply Hname; [reflexivity | lia].
Defined.


(** The preflight reply and the rate-limit refusal carry the CORS
    headers. *)
Lemma C9_cors_headers_witness :
  headers Stub.preflight_resp !! "Access-Control-Allow-Origin" = Some "*" /\
  statusCode Stub.exhausted_resp = 429 /\
  headers Stub.exhausted_resp !! "Access-Control-Allow-Origin" = Some "*".
Proof.
  split.
  - destruct (C9_cors_headers (Stub.env Stub.happy) Stub.options Stub.fresh)
      as (resp & s' & tr & Hrun & Horigin & _ & _ & H).
    at_run Hrun preflight_run.
    apply (H _ _ Horigin). intros d [].
  - destruct (C9_cors_headers (Stub.env Stub.happy)
                (Stub.post Stub.minimal_text) Stub.exhausted)
      as (resp & s' & tr & Hrun & Horigin & _ & _ & H).
    at_run Hrun exhausted_run.
    split; [reflexivity|].
    apply (H _ _ Horigin). intros d Hd _.
    unfold Stub.exhausted_trace in Hd. cbn [In] in Hd.
    destruct Hd as [Hd | []]. injection Hd as <-. vm_compute. reflexivity.
Defined.


(** ** More about the handler *)

(** X1. A request performs no operation exactly when its method is the
    text [OPTIONS]; then the process state is untouched and the reply is
    the fixed preflight response, whatever the body. *)
Theorem preflight_is_inert {S} (env : Env S) event s :
  Resolves env event s (fun resp s' tr =>
    (httpMethod event = "OPTIONS" <-> tr = []) /\
    (tr = [] -> s' = s /\ resp = preflight_response)).
Proof.
  unfold Resolves.
  explore; finish;
    match goal with
    | H : String.eqb _ _ = true |- _ => apply String.eqb_eq in H
    | H : String.eqb _ _ = false |- _ => apply String.eqb_neq in H
    end.
  all: split; [split | ]; intros; first [discriminate | contradiction | auto].
Qed.

(** X2. Every other request, whatever its method, calls the rate limiter
    exactly once, as its first operation, on the event itself and in the
    state the request arrived in: before the body is parsed. *)
Theorem limiter_runs_first {S} (env : Env S) event s :
  Resolves env event s (fun _ _ tr =>
    httpMethod event <> "OPTIONS" ->
    exists rest,
      tr = ERateLimit event (fst (rateLimitMiddleware env event s)) :: rest /\
      calls is_rate_limit rest = 0%nat /\
      calls is_rate_limit tr = 1%nat).
Proof.
  unfold Resolves.
  explore; finish; intros Hm;
    match goal with
    | H : String.eqb _ _ = true |- _ =>
        apply String.eqb_eq in H; contradiction
    | _ => idtac
    end.
  all: eexists; split; [reflexivity | split; reflexivity].
Qed.

(** X3. The status of a response is 200, 400, 403, 422 or 500, unless the
    rate limiter refused the request: then it is the limiter's own
    status and nothing else was done. *)
Theorem status_codes {S} (env : Env S) event s :
  Resolves env event s (fun resp _ tr =>
    In (statusCode resp) [200; 400; 403; 422; 500] \/
    exists d, tr = [ERateLimit event (Ok d)] /\ rl_success d = false /\
              statusCode resp = rl_status d).
Proof.
  unfold Resolves.
  explore; finish;
    first [ left; cbn [statusCode In]; tauto
          | right; eexists; repeat split; reflexivity ].
Qed.

(** X4. The response is the encoded document exactly when the renderer
    returned a buffer; every other response of a request that got past
    the rate limiter has a status other than 200. *)
Theorem document_iff_rendered {S} (env : Env S) event s :
  Resolves env event s (fun resp _ tr =>
    (isBase64Encoded resp = true <->
     exists lease buf, In (ERender lease (Ok buf)) tr) /\
    (isBase64Encoded resp = true -> statusCode resp = 200) /\
    (isBase64Encoded resp = false ->
     forall d, In (ERateLimit event (Ok d)) tr -> rl_success d = true ->
     In (statusCode resp) [400; 403; 422; 500])).
Proof.
  unfold Resolves.
  explore; finish; (split; [split | split]).
  all: lazymatch goal with
    | |- _ = true -> exists _ _, _ =>
        intros H; first [discriminate H | eexists _, _; in_trace]
    | |- (exists _ _, _) -> _ =>
        intros (? & ? & H); pick H; reflexivity
    | |- _ = true -> _ = 200 =>
        intros H; first [discriminate H | reflexivity]
    | |- _ = false -> _ =>
        intros H d Hd Hs; first [discriminate H | pick Hd];
        try discriminate Hs; cbn [statusCode In]; tauto
    end.
Qed.

(** The success response has the seven headers of lines 117-123 and no
    other. *)
Lemma success_headers_names (ct cd rem rst k : string) :
  is_Some
    (spread
       (<["Content-Type" := ct]>
        (<["Content-Disposition" := cd]>
        (<["X-Rate-Limit-Remaining" := rem]>
        (<["X-Rate-Limit-Reset" := rst]> (∅ : gmap string string)))))
       cors_headers !! k) <->
  In k success_header_names.
Proof.
  unfold spread, cors_headers, success_header_names.
  rewrite <- list_elem_of_In, <- elem_of_dom.
  rewrite dom_union_L, !dom_insert_L, dom_empty_L.
  rewrite !elem_of_cons, elem_of_nil, !elem_of_union, !elem_of_singleton,
    elem_of_empty.
  tauto.
Qed.

(** X5. A failure response other than the limiter's refusal carries the
    three CORS headers and nothing else: no content type and no quota
    header.  The success response carries exactly seven headers. *)
Theorem response_headers {S} (env : Env S) event s :
  Resolves env event s (fun resp _ tr =>
    (isBase64Encoded resp = false ->
     (forall d, In (ERateLimit event (Ok d)) tr -> rl_success d = true) ->
     headers resp = cors_headers /\
     headers resp !! "Content-Type" = None /\
     headers resp !! "X-Rate-Limit-Remaining" = None /\
     headers resp !! "X-Rate-Limit-Reset" = None) /\
    (isBase64Encoded resp = true ->
     forall k, is_Some (headers resp !! k) <-> In k success_header_names)).
Proof.
  assert (Hc : cors_headers !! "Content-Type" = None) by reflexivity.
  assert (Hr : cors_headers !! "X-Rate-Limit-Remaining" = None) by reflexivity.
  assert (Ht : cors_headers !! "X-Rate-Limit-Reset" = None) by reflexivity.
  unfold Resolves.
  explore; finish; split.
  all: lazymatch goal with
    | |- _ = false -> _ =>
        intros H Hd;
        first [ discriminate H
              | (repeat split; first [reflexivity | assumption])
              | exfalso; specialize (Hd _ (or_introl eq_refl));
                discriminate Hd ]
    | |- _ = true -> _ =>
        intros H; first [ discriminate H
                        | intros k; cbn [headers]; apply success_headers_names ]
    end.
Qed.

(** X6. A body that [JSON.parse] accepts is written to the console in
    full, captcha token included, right after parsing and before any
    check of it; a request that is refused by the limiter or whose body
    does not parse writes no such line. *)
Theorem body_is_logged {S} (env : Env S) event s :
  Resolves env event s (fun _ _ tr =>
    (calls is_console_log tr <= 1)%nat /\
    (forall b,
       In (EJsonParse (body_text event) (Ok b)) tr ->
       exists first rest,
         tr = first :: EJsonParse (body_text event) (Ok b)
                    :: EConsoleLog "Received request body:" (LPretty b)
                    :: rest /\
         stage_of first = Some RateLimit) /\
    (calls is_console_log tr = 1%nat ->
     exists b, In (EJsonParse (body_text event) (Ok b)) tr)).
Proof.
  unfold Resolves.
  explore; finish; (split; [ | split ]).
  all: lazymatch goal with
    | |- (_ <= _)%nat => cbv; lia
    | |- _ = 1%nat -> _ =>
        intros H; first [discriminate H | eexists; in_trace]
    | |- forall b, In _ _ -> _ =>
        intros ? H; pick H; eexists _, _; (split; reflexivity)
    end.
Qed.

(** X7. What the failures leave in the error log: nothing for the
    limiter's refusal, a missing token and a rejected token; the issues
    for an invalid input; the issues and the whole generated lease for an
    invalid output; the error and its details for an exception; nothing
    for a success. *)
Theorem error_log_lines {S} (env : Env S) event s :
  Resolves env event s (fun resp _ tr =>
    (forall d, In (ERateLimit event (Ok d)) tr -> rl_success d = false ->
               calls is_console_error tr = 0%nat) /\
    (forall b tok,
       In (EJsonParse (body_text event) (Ok b)) tr ->
       In (ECaptchaRequired (Ok true)) tr ->
       get_prop (captureStack env) b "captchaToken" = Ok tok ->
       truthy tok = false ->
       calls is_console_error tr = 0%nat) /\
    (forall tok, In (EVerifyCaptcha tok (Ok false)) tr ->
                 calls is_console_error tr = 0%nat) /\
    (forall raw errors,
       In (EInputParse raw (Ok (ParseFailure errors))) tr ->
       calls is_console_error tr = 1%nat /\
       In (EConsoleError "Input validation failed:" (LIssues errors)) tr) /\
    (forall raw errors,
       In (EOutputParse raw (Ok (ParseFailure errors))) tr ->
       calls is_console_error tr = 2%nat /\
       In (EConsoleError "LLM output validation failed:" (LIssues errors)) tr /\
       In (EConsoleError "LLM returned:" (LPretty raw)) tr) /\
    (forall e, raised env event tr e -> calls is_console_error tr = 2%nat) /\
    (isBase64Encoded resp = true -> calls is_console_error tr = 0%nat)).
Proof.
  unfold Resolves.
  explore; finish;
    (split; [ | split; [ | split; [ | split; [ | split; [ | split ] ] ] ] ]).
  all: lazymatch goal with
    | |- forall d, In (ERateLimit _ _) _ -> _ =>
        intros ? H Hs; pick H; first [discriminate Hs | reflexivity]
    | |- forall b tok, In (EJsonParse _ _) _ -> _ =>
        intros ? ? Hp Hc Hg Hf; pick Hp; pick Hc;
        first [reflexivity | congruence]
    | |- forall tok, In (EVerifyCaptcha _ _) _ -> _ =>
        intros ? H; pick H; reflexivity
    | |- forall raw errors, In (EInputParse _ _) _ -> _ =>
        intros ? ? H; pick H; (split; [reflexivity | in_trace])
    | |- forall raw errors, In (EOutputParse _ _) _ -> _ =>
        intros ? ? H; pick H;
        (split; [reflexivity | split; in_trace])
    | |- forall e, raised _ _ _ _ -> _ =>
        intros e1 [(ev & Hin & Hth) | (b & Hp & Hc & Hg)];
        [ pick Hin; first [discriminate Hth | reflexivity]
        | pick Hp; pick Hc; first [congruence | reflexivity] ]
    | |- _ = true -> _ =>
        intros H; first [discriminate H | reflexivity]
    end.
Qed.

(** X8. The generator is given the data the input schema returned, not
    the raw body; the renderer is given the raw output of the generator,
    the very value the output schema was asked about, whatever data that
    schema returned. *)
Theorem validated_in_raw_out {S} (env : Env S) event s :
  Resolves env event s (fun _ _ tr =>
    (forall p input r,
       In (EGenerate p input r) tr ->
       exists body, In (EJsonParse (body_text event) (Ok body)) tr /\
                    In (EInputParse body (Ok (ParseSuccess input))) tr) /\
    (forall lease r,
       In (ERender lease r) tr ->
       exists p input g data,
         In (EGenerate p input (Ok g)) tr /\ lease = leaseData g /\
         In (EOutputParse lease (Ok (ParseSuccess data))) tr)).
Proof.
  unfold Resolves.
  explore; finish;
    (split;
     [ intros ? ? ? H; pick H; eexists; (split; in_trace)
     | intros ? ? H; pick H; eexists _, _, _, _;
       (split; [in_trace | split; [reflexivity | in_trace]]) ]).
Qed.

(** X9. A thrown value that is not an [Error] never reaches the client:
    the body of the 500 response is the same for every such value, with
    the message [Unknown error], and in development mode [details] is
    the text [No stack trace]. *)
Theorem non_error_is_opaque {S} (env : Env S) event s :
  Resolves env event s (fun resp s' tr =>
    forall v,
      raised env event tr (NonError v) ->
      statusCode resp = 500 /\
      body resp =
        JSON_stringify
          (VObj [("success", VBool false);
                 ("error", VStr "Internal server error");
                 ("message",
                  VStr "An unexpected error occurred: Unknown error. Please try again.");
                 ("details",
                  if bool_decide (NODE_ENV env s' = Some "development")
                  then VStr "No stack trace" else VUndefined)])).
Proof.
  unfold Resolves.
  explore; finish; intros v0 [(ev & Hin & Hth) | (b & Hp & Hc & Hg)].
  all: try (pick Hin; try discriminate Hth).
  all: try (pick Hp; pick Hc; try congruence).
  all: try (cbn [thrown_by] in Hth; injection Hth as ->).
  all: try (match goal with
            | H : get_prop _ _ _ = Throw ?e |- _ =>
                rewrite H in Hg; injection Hg as ->
            end).
  all: split; reflexivity.
Qed.

(** X10. With the challenge on, whatever truthy value the body has
    under [captchaToken] (a number or an object as well as a string) is
    handed to the verification service as it is, once.  With the
    challenge off the service is never called: a token in the body is
    ignored and goes, with the rest of the body, to the input schema. *)
Theorem token_goes_to_verifier {S} (env : Env S) event s :
  Resolves env event s (fun _ _ tr =>
    (forall b tok,
       In (EJsonParse (body_text event) (Ok b)) tr ->
       In (ECaptchaRequired (Ok true)) tr ->
       get_prop (captureStack env) b "captchaToken" = Ok tok ->
       truthy tok = true ->
       (exists r, In (EVerifyCaptcha tok r) tr) /\
       calls is_verify tr = 1%nat) /\
    (forall b,
       In (EJsonParse (body_text event) (Ok b)) tr ->
       In (ECaptchaRequired (Ok false)) tr ->
       calls is_verify tr = 0%nat /\
       exists r, In (EInputParse b r) tr)).
Proof.
  unfold Resolves.
  explore; finish;
    (split;
     [ intros ? ? Hp Hc Hg Hf; pick Hp; pick Hc;
       first [ congruence
             | match goal with
               | H : get_prop _ _ _ = Ok _ |- _ =>
                   rewrite H in Hg; injection Hg as <-
               end;
               (split; [eexists; in_trace | reflexivity]) ]
     | intros ? Hp Hc; pick Hp; pick Hc;
       (split; [reflexivity | eexists; in_trace]) ]).
Qed.

(** X11. The generator is called at most once per request, and only
    after the limiter let the request through, the challenge (when on)
    accepted the token and the input schema accepted the body: no
    generation is paid for a request a guard turned down. *)
Theorem generation_is_guarded {S} (env : Env S) event s :
  Resolves env event s (fun _ _ tr =>
    (calls is_generate tr <= 1)%nat /\
    forall p input r,
      In (EGenerate p input r) tr ->
      (exists d, In (ERateLimit event (Ok d)) tr /\ rl_success d = true) /\
      (In (ECaptchaRequired (Ok false)) tr \/
       exists tok, In (EVerifyCaptcha tok (Ok true)) tr) /\
      (exists raw, In (EInputParse raw (Ok (ParseSuccess input))) tr) /\
      exists pre post,
        tr = pre ++ EGenerate p input r :: post /\
        calls is_rate_limit pre = 1%nat /\
        calls is_input_parse pre = 1%nat /\
        calls is_generate post = 0%nat).
Proof.
  unfold Resolves.
  explore; finish; (split; [cbv; lia | ]).
  all: intros ? ? ? H; pick H.
  all: split; [eexists; (split; [in_trace | reflexivity]) | ].
  all: split; [first [left; solve [in_trace] | right; eexists; in_trace] | ].
  all: split; [eexists; in_trace | ].
  all: first
    [ eexists [_; _; _; _; _; _], _; (split; [reflexivity | repeat split; reflexivity])
    | eexists [_; _; _; _; _; _; _], _; (split; [reflexivity | repeat split; reflexivity]) ].
Qed.

(** *** The text of the document *)

Lemma base64_char_in_alphabet (i : N) :
  (i < 64)%N -> is_base64_char (base64_char i) = true.
Proof.
  intros H. unfold is_base64_char.
  destruct (base64_index_char i H) as [-> _]. reflexivity.
Qed.

Lemma base64_shape (bytes : list Byte.byte) :
  String.length (base64 bytes) = (4 * ((length bytes + 2) / 3))%nat /\
  all_base64 (base64 bytes) = true.
Proof.
  induction bytes as [|a|a b|a b c l [IHl IHc]] using list_ind3.
  - split; reflexivity.
  - pose proof (Byte.to_N_bounded a) as Ha.
    destruct (sextets_of_one (Byte.to_N a) ltac:(lia)) as (B0 & B1 & _).
    split; [reflexivity|].
    cbn [base64 all_base64]. cbv zeta.
    rewrite !base64_char_in_alphabet by assumption. reflexivity.
  - pose proof (Byte.to_N_bounded a) as Ha.
    pose proof (Byte.to_N_bounded b) as Hb.
    destruct (sextets_of_two (Byte.to_N a * 256 + Byte.to_N b) ltac:(lia))
      as (B0 & B1 & B2 & _).
    split; [reflexivity|].
    cbn [base64 all_base64]. cbv zeta.
    rewrite !base64_char_in_alphabet by assumption. reflexivity.
  - pose proof (Byte.to_N_bounded a) as Ha.
    pose proof (Byte.to_N_bounded b) as Hb.
    pose proof (Byte.to_N_bounded c) as Hc.
    set (n := (Byte.to_N a * 65536 + Byte.to_N b * 256 + Byte.to_N c)%N).
    destruct (sextets_bounded n ltac:(subst n; lia)) as (B0 & B1 & B2 & B3).
    split.
    + cbn [base64 String.length length]. cbv zeta. rewrite IHl.
      replace (S (S (S (length l))) + 2)%nat with (length l + 2 + 1 * 3)%nat by lia.
      rewrite Nat.div_add by lia. lia.
    + cbn [base64 all_base64]. cbv zeta. fold n.
      rewrite !base64_char_in_alphabet by assumption. exact IHc.
Qed.

Lemma base64_empty (bytes : list Byte.byte) :
  base64 bytes = EmptyString -> bytes = [].
Proof.
  destruct bytes as [|a [|b [|c l]]]; [reflexivity | | | ];
    cbn [base64]; cbv zeta; discriminate.
Qed.

(** X12. The body of a success response is padded base64 text: its
    characters are letters, digits, [+], [/] and [=], and its length is
    four characters for every three bytes of the document, rounded up;
    it is empty only for an empty document. *)
Theorem document_body_shape {S} (env : Env S) event s :
  Resolves env event s (fun resp _ tr =>
    forall lease buf,
      In (ERender lease (Ok buf)) tr ->
      String.length (body resp) = (4 * ((length buf + 2) / 3))%nat /\
      all_base64 (body resp) = true /\
      (body resp = EmptyString -> buf = [])).
Proof.
  unfold Resolves.
  explore; finish; intros ? ? H; pick H.
  all: cbn [body];
    match goal with
    | |- String.length (base64 ?b) = _ /\ _ =>
        destruct (base64_shape b) as [Hl Hc];
        split; [exact Hl | split; [exact Hc | apply base64_empty]]
    end.
Qed.

(** ** The further scenarios, run *)

Lemma get_run :
  run (handler (Stub.env Stub.happy) Cases.get_notjson) Stub.fresh
  = (Ok Cases.get_resp, Stub.counted, Cases.get_trace).
Proof. vm_compute. reflexivity. Qed.

Lemma text_run :
  run (handler (Stub.env Cases.throws_text) (Stub.post Stub.minimal_text)) Stub.fresh
  = (Ok Cases.text_resp, Cases.text_final, Cases.text_trace).
Proof. vm_compute. reflexivity. Qed.

Lemma numeric_run :
  run (handler (Stub.env Cases.guarded_numeric) (Stub.post Cases.numeric_text))
      Stub.fresh
  = (Ok Cases.numeric_resp, Stub.counted, Cases.numeric_trace).
Proof. vm_compute. reflexivity. Qed.

Lemma ignored_run :
  run (handler (Stub.env Stub.happy) (Stub.post Cases.goodtoken_text)) Stub.fresh
  = (Ok Cases.ignored_resp, Cases.ignored_final, Cases.ignored_trace).
Proof. vm_compute. reflexivity. Qed.

(** ** The further properties on the scenarios *)

(** A GET request with an unreadable body still costs one unit of
    quota. *)
Lemma limiter_runs_first_witness :
  httpMethod Cases.get_notjson <> "OPTIONS" /\
  calls is_rate_limit Cases.get_trace = 1%nat /\
  Stub.used Stub.fresh = 0 /\ Stub.used Stub.counted = 1 /\
  statusCode Cases.get_resp = 500.
Proof.
  assert (Hm : httpMethod Cases.get_notjson <> "OPTIONS") by discriminate.
  destruct (limiter_runs_first (Stub.env Stub.happy) Cases.get_notjson Stub.fresh)
    as (resp & s' & tr & Hrun & H).
  at_run Hrun get_run.
  destruct (H Hm) as (rest & _ & _ & Hone).
  split; [exact Hm|]. split; [exact Hone|]. repeat split.
Defined.

(** The preflight request of the scenarios performs nothing. *)
Lemma preflight_is_inert_witness :
  httpMethod Stub.options = "OPTIONS" /\
  Stub.preflight_resp = preflight_response.
Proof.
  destruct (preflight_is_inert (Stub.env Stub.happy) Stub.options Stub.fresh)
    as (resp & s' & tr & Hrun & Hiff & Hinert).
  at_run Hrun preflight_run.
  split; [reflexivity|]. now destruct (Hinert eq_refl).
Defined.

(** The end-to-end scenario is a document; the 422 scenario is not. *)
Lemma document_iff_rendered_witness :
  isBase64Encoded Stub.happy_resp = true /\
  statusCode Stub.happy_resp = 200 /\
  isBase64Encoded Stub.norent_resp = false /\
  In (statusCode Stub.norent_resp) [400; 403; 422; 500].
Proof.
  split; [| split].
  - destruct (document_iff_rendered (Stub.env Stub.happy)
                (Stub.post Stub.minimal_text) Stub.fresh)
      as (resp & s' & tr & Hrun & Hiff & _).
    at_run Hrun happy_run.
    apply Hiff. eexists _, _. unfold Stub.happy_trace. in_trace.
  - destruct (document_iff_rendered (Stub.env Stub.happy)
                (Stub.post Stub.minimal_text) Stub.fresh)
      as (resp & s' & tr & Hrun & _ & H200 & _).
    at_run Hrun happy_run. apply H200. reflexivity.
  - destruct (document_iff_rendered (Stub.env Stub.drops_rent)
                (Stub.post Stub.minimal_text) Stub.fresh)
      as (resp & s' & tr & Hrun & _ & _ & Hfail).
    at_run Hrun norent_run.
    split; [reflexivity|].
    eapply Hfail; [reflexivity | unfold Stub.norent_trace; in_trace | reflexivity].
Defined.

(** The 422 response of the scenarios has the CORS headers only. *)
Lemma response_headers_witness :
  isBase64Encoded Stub.norent_resp = false /\
  headers Stub.norent_resp = cors_headers /\
  headers Stub.norent_resp !! "Content-Type" = None.
Proof.
  destruct (response_headers (Stub.env Stub.drops_rent)
              (Stub.post Stub.minimal_text) Stub.fresh)
    as (resp & s' & tr & Hrun & Hfail & _).
  at_run Hrun norent_run.
  split; [reflexivity|].
  destruct Hfail as (Hh & Hct & _); [reflexivity | | auto].
  intros d Hd. unfold Stub.norent_trace in Hd. pick Hd. reflexivity.
Defined.

(** The body of the end-to-end scenario is in the log. *)
Lemma body_is_logged_witness :
  In (EJsonParse (body_text (Stub.post Stub.minimal_text)) (Ok Stub.minimal_input))
     Stub.happy_trace /\
  In (EConsoleLog "Received request body:" (LPretty Stub.minimal_input))
     Stub.happy_trace.
Proof.
  destruct (body_is_logged (Stub.env Stub.happy)
              (Stub.post Stub.minimal_text) Stub.fresh)
    as (resp & s' & tr & Hrun & _ & Hlog & _).
  at_run Hrun happy_run.
  assert (Hin : In (EJsonParse (body_text (Stub.post Stub.minimal_text))
                      (Ok Stub.minimal_input)) Stub.happy_trace)
    by (unfold Stub.happy_trace; in_trace).
  split; [exact Hin|].
  destruct (Hlog _ Hin) as (first & rest & -> & _). in_trace.
Defined.

(** The 422 scenario writes two lines, the token scenarios none. *)
Lemma error_log_lines_witness :
  calls is_console_error Stub.norent_trace = 2%nat /\
  calls is_console_error Stub.badtoken_trace = 0%nat.
Proof.
  split.
  - destruct (error_log_lines (Stub.env Stub.drops_rent)
                (Stub.post Stub.minimal_text) Stub.fresh)
      as (resp & s' & tr & Hrun & _ & _ & _ & _ & H422 & _).
    at_run Hrun norent_run.
    edestruct H422 as (Hn & _); [unfold Stub.norent_trace; in_trace | exact Hn].
  - destruct (error_log_lines (Stub.env Stub.guarded)
                (Stub.post Stub.badtoken_text) Stub.fresh)
      as (resp & s' & tr & Hrun & _ & _ & H403 & _).
    at_run Hrun badtoken_run.
    eapply H403. unfold Stub.badtoken_trace. in_trace.
Defined.

(** In the end-to-end scenario the renderer gets the generator's
    output. *)
Lemma validated_in_raw_out_witness :
  In (ERender Stub.minimal_input (Ok Stub.four_bytes)) Stub.happy_trace /\
  exists data, In (EOutputParse Stub.minimal_input (Ok (ParseSuccess data)))
                  Stub.happy_trace.
Proof.
  destruct (validated_in_raw_out (Stub.env Stub.happy)
              (Stub.post Stub.minimal_text) Stub.fresh)
    as (resp & s' & tr & Hrun & _ & Hrender).
  at_run Hrun happy_run.
  assert (Hin : In (ERender Stub.minimal_input (Ok Stub.four_bytes))
                   Stub.happy_trace)
    by (unfold Stub.happy_trace; in_trace).
  split; [exact Hin|].
  destruct (Hrender _ _ Hin) as (p & input & g & data & _ & _ & Hout).
  eauto.
Defined.

(** A thrown text does not show in the response. *)
Lemma non_error_is_opaque_witness :
  raised (Stub.env Cases.throws_text) (Stub.post Stub.minimal_text)
         Cases.text_trace (NonError (VStr "sk-live-key rejected")) /\
  statusCode Cases.text_resp = 500 /\
  contains "sk-live-key" (body Cases.text_resp) = false /\
  contains "Unknown error" (body Cases.text_resp) = true.
Proof.
  destruct (non_error_is_opaque (Stub.env Cases.throws_text)
              (Stub.post Stub.minimal_text) Stub.fresh)
    as (resp & s' & tr & Hrun & H).
  at_run Hrun text_run.
  assert (Hr : raised (Stub.env Cases.throws_text) (Stub.post Stub.minimal_text)
                 Cases.text_trace (NonError (VStr "sk-live-key rejected"))).
  { left. exists (EGenerate 0%nat Stub.minimal_input
                    (Throw (NonError (VStr "sk-live-key rejected")))).
    split; [unfold Cases.text_trace; in_trace | reflexivity]. }
  split; [exact Hr|].
  destruct (H _ Hr) as (Hst & Hbody).
  split; [exact Hst|]. rewrite Hbody. split; vm_compute; reflexivity.
Defined.

(** A numeric token is handed to the service; a token sent while the
    challenge is off is not. *)
Lemma token_goes_to_verifier_witness :
  (In (EVerifyCaptcha (VNum (NInt 1)) (Ok false)) Cases.numeric_trace /\
   calls is_verify Cases.numeric_trace = 1%nat) /\
  (In (ECaptchaRequired (Ok false)) Cases.ignored_trace /\
   calls is_verify Cases.ignored_trace = 0%nat /\
   statusCode Cases.ignored_resp = 200).
Proof.
  split.
  - destruct (token_goes_to_verifier (Stub.env Cases.guarded_numeric)
                (Stub.post Cases.numeric_text) Stub.fresh)
      as (resp & s' & tr & Hrun & Hon & _).
    at_run Hrun numeric_run.
    destruct (Hon Cases.numeric_token (VNum (NInt 1))) as ((r & Hr) & Hone);
      [ unfold Cases.numeric_trace; in_trace
      | unfold Cases.numeric_trace; in_trace
      | reflexivity | reflexivity | ].
    split; [unfold Cases.numeric_trace; in_trace | exact Hone].
  - destruct (token_goes_to_verifier (Stub.env Stub.happy)
                (Stub.post Cases.goodtoken_text) Stub.fresh)
      as (resp & s' & tr & Hrun & _ & Hoff).
    at_run Hrun ignored_run.
    assert (Hc : In (ECaptchaRequired (Ok false)) Cases.ignored_trace)
      by (unfold Cases.ignored_trace; in_trace).
    split; [exact Hc|].
    destruct (Hoff (Stub.with_token "good")) as (Hzero & _);
      [unfold Cases.ignored_trace; in_trace | exact Hc | ].
    split; [exact Hzero | reflexivity].
Defined.

(** The generation of the end-to-end scenario came after the guards. *)
Lemma generation_is_guarded_witness :
  (exists r, In (EGenerate 0%nat Stub.minimal_input r) Stub.happy_trace) /\
  (exists d, In (ERateLimit (Stub.post Stub.minimal_text) (Ok d)) Stub.happy_trace /\
             rl_success d = true) /\
  In (EInputParse Stub.minimal_input (Ok (ParseSuccess Stub.minimal_input)))
     Stub.happy_trace.
Proof.
  destruct (generation_is_guarded (Stub.env Stub.happy)
              (Stub.post Stub.minimal_text) Stub.fresh)
    as (resp & s' & tr & Hrun & _ & H).
  at_run Hrun happy_run.
  edestruct H as (Hd & _ & (raw & Hin) & _);
    [unfold Stub.happy_trace; in_trace|].
  split; [eexists; unfold Stub.happy_trace; in_trace|].
  split; [exact Hd|].
  unfold Stub.happy_trace. in_trace.
Defined.

(** Four bytes make eight characters. *)
Lemma document_body_shape_witness :
  In (ERender Stub.minimal_input (Ok Stub.four_bytes)) Stub.happy_trace /\
  String.length (body Stub.happy_resp) = 8%nat /\
  all_base64 (body Stub.happy_resp) = true.
Proof.
  destruct (document_body_shape (Stub.env Stub.happy)
              (Stub.post Stub.minimal_text) Stub.fresh)
    as (resp & s' & tr & Hrun & H).
  at_run Hrun happy_run.
  assert (Hin : In (ERender Stub.minimal_input (Ok Stub.four_bytes))
                   Stub.happy_trace)
    by (unfold Stub.happy_trace; in_trace).
  split; [exact Hin|].
  destruct (H _ _ Hin) as (Hl & Hc & _). split; [exact Hl | exact Hc].
Defined.

(** ** The lease form *)

Module FormFacts.
Import Form.

Lemma or_number_passes (a b : Number) :
  passes_or b = true -> passes_or (or_number a b) = true.
Proof.
  intros Hb. unfold or_number, passes_or in *.
  destruct (truthy (VNum a)) eqn:E; [exact E | exact Hb].
Qed.

Lemma or_number_idem (a b : Number) :
  passes_or b = true -> or_number (or_number a b) b = or_number a b.
Proof.
  intros Hb. unfold or_number at 1.
  pose proof (or_number_passes a b Hb) as H. unfold passes_or in H.
  now rewrite H.
Qed.

Lemma or_text_same (v : string) : or_text (Some v) EmptyString = v.
Proof.
  unfold or_text. destruct (String.eqb v EmptyString) eqn:E; [|reflexivity].
  apply String.eqb_eq in E. now subst.
Qed.

Lemma or_text_idem (a : option string) :
  or_text (Some (or_text a EmptyString)) EmptyString = or_text a EmptyString.
Proof. apply or_text_same. Qed.

Section WithParsers.
Variable parseFloat : string -> Number.
Variable parseInt : string -> Number.

Local Abbreviation edit := (Form.edit parseFloat parseInt).
Local Abbreviation edits := (Form.edits parseFloat parseInt).
Local Abbreviation handle := (Form.handle parseFloat parseInt).

Lemma edits_snoc l f v fd : edits (l ++ [(f, v)]) fd = edit f v (edits l fd).
Proof. unfold Form.edits. now rewrite fold_left_app. Qed.

(** X13. After a change is handled the field shows what was entered:
    the text itself for the text and date fields, [apartment] for an empty
    property type, the parsed number for the amounts with [0] in place of
    [0] or [NaN], and the parsed number of months with [12] in place of
    [0] or [NaN]. *)
Theorem edit_then_show (f : FieldName) (v : string) (fd : LeaseFormData) :
  value_of f (edit f v fd) =
  match f with
  | PropertyType => SText (if String.eqb v EmptyString then "apartment" else v)
  | MonthlyRent | SecurityDeposit => SNum (or_number (parseFloat v) (NInt 0))
  | Months => SNum (or_number (parseInt v) (NInt 12))
  | PropertyAddress | LandlordName | LandlordAddress | TenantName
  | StartDate => SText v
  end.
Proof.
  destruct f; try reflexivity.
  - (* tenant name: one party or an array *)
    unfold Form.edit, Form.handle, value_of, updateFormData, onChange.
    destruct (tenant fd); cbn -[or_text]; [reflexivity|].
    now rewrite or_text_same.
  - (* months *)
    unfold Form.edit, Form.handle, value_of, updateFormData, onChange.
    cbn -[or_number].
    now rewrite or_number_idem.
Qed.

(** X14. Handling a change of one field leaves what every other field
    shows as it was. *)
Theorem edit_keeps_other_fields (f g : FieldName) (v : string)
    (fd : LeaseFormData) :
  f <> g -> value_of g (edit f v fd) = value_of g fd.
Proof.
  intros Hne. destruct f, g; try contradiction; reflexivity.
Qed.

(** X15. Two handlers created in the same render and run one after
    the other: the later one always takes effect; the earlier one is
    undone when both fields live under the same key of the state (the
    later handler writes back that key as it was rendered), and is kept
    when they live under different keys. *)
Theorem handlers_of_one_render (f g : FieldName) (v1 v2 : string)
    (fd : LeaseFormData) :
  f <> g ->
  let result := handle g fd v2 (handle f fd v1 fd) in
  value_of g result = value_of g (edit g v2 fd) /\
  (key_of f = key_of g -> value_of f result = value_of f fd) /\
  (key_of f <> key_of g -> value_of f result = value_of f (edit f v1 fd)).
Proof.
  intros Hne result. subst result.
  destruct f, g; try contradiction;
    (split; [reflexivity | split; intros Hk]);
    first [reflexivity | discriminate Hk | now destruct Hk].
Qed.

Lemma edit_untouched f v fd : untouched (edit f v fd) = untouched fd.
Proof. destruct f; reflexivity. Qed.

(** X16. No sequence of changes reaches the jurisdiction, the pet
    policy, the house rules, the notice and signature settings, the end
    date and renewal, the proration method, utilities and late fee, the
    bedroom, bathroom and zip code entries, the landlord's email or the
    captcha token.  A form that started in its initial state therefore
    submits the jurisdiction US / CA / San Francisco and no captcha token,
    whatever was entered. *)
Theorem edits_keep_untouched (l : list (FieldName * string))
    (fd : LeaseFormData) (today : string) :
  untouched (edits l fd) = untouched fd /\
  (let sent := edits l (initial today) in
   handleSubmit sent = [PreventDefault; OnGenerate sent] /\
   jurisdiction sent =
     {| country := "US"; state := Some "CA"; city := Some "San Francisco" |} /\
   captchaToken sent = None).
Proof.
  assert (H : forall l fd, untouched (edits l fd) = untouched fd).
  { clear. intros l. induction l as [|[f v] l IH] using rev_ind; intros fd.
    - reflexivity.
    - now rewrite edits_snoc, edit_untouched. }
  split; [apply H|]. cbv zeta. split; [reflexivity|].
  pose proof (H l (initial today)) as E. unfold untouched in E.
  injection E as Hj _ _ _ _ Hc _ _ _ _ _ _ _ _ _ _.
  split; [exact Hj | exact Hc].
Qed.

Lemma or_number_not_nan (a : Number) (z : Z) :
  is_nan (or_number a (NInt z)) = false.
Proof.
  unfold or_number. destruct (truthy (VNum a)) eqn:E; [|reflexivity].
  destruct a; try reflexivity. discriminate E.
Qed.

Lemma edit_sane f v fd : sane fd -> sane (edit f v fd).
Proof.
  intros (Hr & Hd & Hm).
  destruct f; unfold sane;
    cbn [Form.edit Form.handle updateFormData onChange financials term default
         u_financials u_term monthlyRent securityDeposit months];
    repeat split; try assumption; try apply or_number_not_nan.
  now apply or_number_passes.
Qed.

(** X17. Whatever is typed, the monthly rent and the security deposit
    of the form are never [NaN], and the number of months, once the form
    has started from its initial state, is always present and never [0]
    or [NaN]: unparsable or zero entries are replaced by [0], for the
    duration by [12]. *)
Theorem amounts_stay_numbers (l : list (FieldName * string)) (today : string) :
  let fd := edits l (initial today) in
  is_nan (monthlyRent (financials fd)) = false /\
  is_nan (securityDeposit (financials fd)) = false /\
  exists m, months (term fd) = Some m /\ passes_or m = true.
Proof.
  cbv zeta.
  induction l as [|[f v] l IH] using rev_ind.
  - repeat split. exists (NInt 12). split; reflexivity.
  - rewrite edits_snoc. destruct IH as (Hr & Hd & m & Hm & Hp).
    assert (Hs : sane (edits l (initial today))).
    { unfold sane. rewrite Hm. auto. }
    destruct (edit_sane f v _ Hs) as (Hr' & Hd' & Hm').
    split; [exact Hr' | split; [exact Hd' | ]].
    destruct f;
      cbn [Form.edit Form.handle updateFormData onChange term default u_term
           months] in Hm' |- *;
      try (exists m; split; assumption).
    eexists; split; [reflexivity | exact Hm'].
Qed.

Lemma edit_tenant_shape f v fd :
  match tenant fd, tenant (edit f v fd) with
  | One p, One q =>
      or_text (email q) EmptyString = or_text (email p) EmptyString
  | Many _, Many _ => True
  | _, _ => False
  end.
Proof.
  destruct f; cbn [Form.edit Form.handle updateFormData onChange tenant
                   u_tenant default];
    destruct (tenant fd); try exact I; try reflexivity.
  cbn [email]. apply or_text_idem.
Qed.

(** X18. Changing the tenant's name rewrites the whole tenant entry:
    a single tenant keeps its email (an absent one becomes the empty
    text), while an array of tenants, however many it holds, is replaced
    by a one-element array with the new name and an empty email, and this
    whatever other changes were handled before. *)
Theorem tenant_name_rewrites_entry (l : list (FieldName * string))
    (v : string) (fd : LeaseFormData) :
  tenant (edits (l ++ [(TenantName, v)]) fd) =
  match tenant fd with
  | One p => One {| name := v; email := Some (or_text (email p) EmptyString) |}
  | Many _ => Many [{| name := v; email := Some EmptyString |}]
  end.
Proof.
  rewrite edits_snoc.
  assert (H : match tenant fd, tenant (edits l fd) with
              | One p, One q =>
                  or_text (email q) EmptyString = or_text (email p) EmptyString
              | Many _, Many _ => True
              | _, _ => False
              end).
  { induction l as [|[f w] l IH] using rev_ind.
    - cbn. now destruct (tenant fd).
    - rewrite edits_snoc.
      pose proof (edit_tenant_shape f w (edits l fd)) as Hs.
      destruct (tenant fd), (tenant (edits l fd)),
        (tenant (edit f w (edits l fd))); try contradiction; try exact I.
      congruence. }
  cbn [Form.edit Form.handle updateFormData onChange tenant u_tenant default].
  destruct (tenant fd), (tenant (edits l fd)); try contradiction.
  - now rewrite H.
  - reflexivity.
Qed.

End WithParsers.

(** *** The form on examples *)

(** The rent field after typing [2500], with the other fields as they
    were. *)
Lemma edit_keeps_other_fields_witness :
  MonthlyRent <> SecurityDeposit /\
  value_of SecurityDeposit
    (Form.edit parse_demo parse_demo MonthlyRent "2500" (initial "2026-01-01"))
  = SNum (NInt 0).
Proof.
  assert (Hne : MonthlyRent <> SecurityDeposit) by discriminate.
  split; [exact Hne|].
  rewrite (edit_keeps_other_fields parse_demo parse_demo _ _ "2500"
             (initial "2026-01-01") Hne).
  reflexivity.
Defined.

(** The landlord's name and address changed by two handlers of the same
    render: the name entered first is gone. *)
Lemma handlers_of_one_render_witness :
  LandlordName <> LandlordAddress /\
  key_of LandlordName = key_of LandlordAddress /\
  let result :=
    Form.handle parse_demo parse_demo LandlordAddress (initial "2026-01-01")
      "1 Main St"
      (Form.handle parse_demo parse_demo LandlordName (initial "2026-01-01")
         "Ann" (initial "2026-01-01")) in
  value_of LandlordAddress result = SText "1 Main St" /\
  value_of LandlordName result = SText EmptyString.
Proof.
  assert (Hne : LandlordName <> LandlordAddress) by discriminate.
  split; [exact Hne|]. split; [reflexivity|]. cbv zeta.
  destruct (handlers_of_one_render parse_demo parse_demo _ _ "Ann" "1 Main St"
              (initial "2026-01-01") Hne) as (Hg & Hsame & _).
  split; [rewrite Hg; reflexivity | rewrite (Hsame eq_refl); reflexivity].
Defined.

End FormFacts.
